(** * Bounded tool-round orchestration of the course-materials chatbot

    A shallow embedding of [backend/ai_generator.py] (class [AIGenerator]),
    together with the retrieval tool and the similarity store it drives, and
    the properties of the bounded model-call / tool-call loop.

    The inference provider and the tool manager are external collaborators:
    they are modelled as step functions over an abstract world state, and every
    call made to them is recorded in a trace of events, so that the number,
    order and arguments of the calls can be stated. *)

From Stdlib Require Import String Ascii List Arith Lia Bool ZArith.
From Stdlib Require Import DecimalString.
Import ListNotations.
Local Open Scope string_scope.
Local Open Scope list_scope.

(** ** Python values used by the code *)

Module Py.

(** One-character strings that cannot be written inside a literal. *)
Definition dquote : string := String (ascii_of_nat 34) EmptyString.
Definition nl : string := String (ascii_of_nat 10) EmptyString.

(** Truth value of an [Optional[str]]: [None] and the empty string are
    falsy. *)
Definition truthy_str (s : option string) : bool :=
  match s with
  | None => false
  | Some EmptyString => false
  | Some (String _ _) => true
  end.

(** Truth value of an [Optional[List]]: [None] and the empty list are
    falsy. *)
Definition truthy_list {A : Type} (l : option (list A)) : bool :=
  match l with
  | None => false
  | Some [] => false
  | Some (_ :: _) => true
  end.

(** [str(n)] for a non-negative integer. *)
Definition str_of_nat (n : nat) : string :=
  NilEmpty.string_of_uint (Nat.to_uint n).

(** [s.startswith(p)]. *)
Fixpoint startswith (s p : string) {struct p} : bool :=
  match p with
  | EmptyString => true
  | String a p' =>
      match s with
      | EmptyString => false
      | String b s' => Ascii.eqb a b && startswith s' p'
      end
  end.

(** [needle in haystack] on strings. *)
Fixpoint contains (needle haystack : string) : bool :=
  if startswith haystack needle then true
  else match haystack with
       | EmptyString => false
       | String _ rest => contains needle rest
       end.

End Py.

(** ** Data exchanged with the inference provider *)

(** A JSON scalar, enough for the keyword arguments of a tool call. *)
Inductive JsonValue : Type :=
| JStr (s : string)
| JInt (z : Z)
| JNull.

(** [block.input]: the keyword arguments of a tool call. *)
Definition ToolInput : Type := list (string * JsonValue).

(** A content block of a response.  [block.type] is ["text"] for the first
    form and ["tool_use"] for the second; only a text block has [.text], only
    a tool-use block has [.name], [.id] and [.input]. *)
Inductive ContentBlock : Type :=
| TextBlock (text : string)
| ToolUseBlock (id : string) (name : string) (input : ToolInput).

Definition block_type (b : ContentBlock) : string :=
  match b with
  | TextBlock _ => "text"
  | ToolUseBlock _ _ _ => "tool_use"
  end.

(** What [client.messages.create] returns. *)
Record Response : Type := mkResponse {
  stop_reason : string;
  content : list ContentBlock
}.

(** An entry of [tool_results]:
    [{"type": "tool_result", "tool_use_id": ..., "content": ...}]. *)
Record ToolResult : Type := mkToolResult {
  tr_type : string;
  tool_use_id : string;
  tr_content : string
}.

(** The ["content"] of a turn: the question, the blocks of an assistant
    response, or a list of tool results. *)
Inductive TurnContent : Type :=
| QueryText (s : string)
| Blocks (bs : list ContentBlock)
| ToolResults (rs : list ToolResult).

(** A turn of the conversation: [{"role": ..., "content": ...}]. *)
Record Message : Type := mkMessage {
  role : string;
  msg_content : TurnContent
}.

(** A tool schema advertised to the provider. *)
Record ToolSchema : Type := mkToolSchema {
  schema_name : string;
  schema_description : string;
  input_schema : list (string * string)
}.

(** [{"type": "auto"}]. *)
Record ToolChoice : Type := mkToolChoice { choice_type : string }.

(** [self.base_params]. *)
Record BaseParams : Type := mkBaseParams {
  model : string;
  temperature : Z;
  max_tokens : Z
}.

(** The keyword arguments of one [client.messages.create] call, as the
    provider receives them at the time of the call.  An absent key is
    [None]. *)
Record Request : Type := mkRequest {
  base : BaseParams;
  messages : list Message;
  system : string;
  tools : option (list ToolSchema);
  tool_choice : option ToolChoice
}.

(** ** Outcomes *)

(** How a provider call ends: with a response, or with the provider's own
    exception (transport, authentication, rate limit). *)
Inductive ProviderResult : Type :=
| Responded (r : Response)
| ProviderRaised (msg : string).

(** How a tool execution ends: with its text, or with an [Exception] whose
    [str()] is [msg]. *)
Inductive ToolOutcome : Type :=
| Returned (s : string)
| ToolRaised (msg : string).

(** The exceptions that can leave [generate_response]. *)
Inductive Exn : Type :=
| ProviderError (msg : string)   (* raised by [client.messages.create] *)
| IndexError                     (* [response.content[0]] on no blocks *)
| AttributeError.                (* [.text] on a block that has none *)

Inductive Outcome (A : Type) : Type :=
| Ret (a : A)
| Raise (e : Exn).
Arguments Ret {A} a.
Arguments Raise {A} e.

(** The calls made to the collaborators, in the order they are made. *)
Inductive Event : Type :=
| ProviderCall (req : Request) (res : ProviderResult)
| ToolExec (name : string) (input : ToolInput) (out : ToolOutcome).

Definition is_provider_call (e : Event) : bool :=
  match e with ProviderCall _ _ => true | ToolExec _ _ _ => false end.

Definition is_tool_exec (e : Event) : bool :=
  match e with ProviderCall _ _ => false | ToolExec _ _ _ => true end.

(** The inference calls of a trace, and the tool executions of a trace. *)
Definition provider_calls (tr : list Event) : list Event :=
  filter is_provider_call tr.

Definition tool_execs (tr : list Event) : list Event :=
  filter is_tool_exec tr.

(** ** The orchestrator *)

Module AIGenerator.

Definition MAX_TOOL_ROUNDS : nat := 2.

Definition SYSTEM_PROMPT : string :=
  (" You are an AI assistant specialized in course materials and educational content with access to a comprehensive search tool for course information.

Tool Usage:
- Use `get_course_outline` for questions about course structure, lesson lists, or what topics a course covers
- Use `search_course_content` for questions about specific course content or detailed educational material
- **Up to 2 sequential tool calls per query** — use a second call only when the first result reveals information needed to form a better search (e.g., get a course outline, then search for related content using a lesson title found in the outline). Do not use both calls for redundant searches.
- Synthesize tool results into accurate, fact-based responses
- If a tool yields no results, state this clearly without offering alternatives

When responding to outline queries, include the course title, course link, and all lesson numbers with their titles.

Response Protocol:
- **General knowledge questions**: Answer using existing knowledge without searching
- **Course-specific questions**: Search first, then answer
- **No meta-commentary**:
 - Provide direct answers only — no reasoning process, search explanations, or question-type analysis
 - Do not mention " ++ Py.dquote ++ "based on the search results" ++ Py.dquote ++ "


All responses must be:
1. **Brief, Concise and focused** - Get to the point quickly
2. **Educational** - Maintain instructional value
3. **Clear** - Use accessible language
4. **Example-supported** - Include relevant examples when they aid understanding
Provide only the direct answer to what was asked.
")%string.

Section Orchestrator.

(** The state of everything outside the orchestrator. *)
Variable World : Type.

(** A computation that may call the collaborators: from a world it gives
    an outcome, the world afterwards and the calls it made. *)
Definition M (A : Type) : Type := World -> Outcome A * World * list Event.

Definition ret {A : Type} (a : A) : M A := fun w => (Ret a, w, []).

Definition raise {A : Type} (e : Exn) : M A := fun w => (Raise e, w, []).

Definition bind {A B : Type} (c : M A) (k : A -> M B) : M B :=
  fun w =>
    match c w with
    | (Ret a, w1, tr1) =>
        match k a w1 with
        | (o, w2, tr2) => (o, w2, tr1 ++ tr2)
        end
    | (Raise e, w1, tr1) => (Raise e, w1, tr1)
    end.

Notation "x <- c ;; k" := (bind c (fun x => k))
  (at level 61, c at next level, right associativity).

(** [self.client]: an object with [messages.create]. *)
Record Client : Type := mkClient {
  messages_create : Request -> World -> ProviderResult * World
}.

(** [tool_manager]: an object with [execute_tool]. *)
Record ToolManager : Type := mkToolManager {
  execute_tool : string -> ToolInput -> World -> ToolOutcome * World
}.

(** The instance: [self.client], [self.model], [self.base_params]. *)
Record t : Type := mkAIGenerator {
  client : Client;
  self_model : string;
  base_params : BaseParams
}.

(** [__init__]. *)
Definition init (c : Client) (model : string) : t :=
  {| client := c;
     self_model := model;
     base_params :=
       {| model := model; temperature := 0; max_tokens := 800 |} |}.

(** One call of [self.client.messages.create]: the provider's exception
    is not caught. *)
Definition create (self : t) (req : Request) : M Response :=
  fun w =>
    match messages_create (client self) req w with
    | (Responded r, w1) => (Ret r, w1, [ProviderCall req (Responded r)])
    | (ProviderRaised m, w1) =>
        (Raise (ProviderError m), w1, [ProviderCall req (ProviderRaised m)])
    end.

(** [response.content[0].text]. *)
Definition content0_text (r : Response) : Outcome string :=
  match content r with
  | [] => Raise IndexError
  | TextBlock text :: _ => Ret text
  | ToolUseBlock _ _ _ :: _ => Raise AttributeError
  end.

Definition return_text (r : Response) : M string :=
  fun w => (content0_text r, w, []).

(** The [try ... except Exception as e] around one tool call. *)
Definition try_execute_tool (tool_manager : ToolManager)
    (name : string) (input : ToolInput) : M string :=
  fun w =>
    match execute_tool tool_manager name input w with
    | (Returned result, w1) =>
        (Ret result, w1, [ToolExec name input (Returned result)])
    | (ToolRaised e, w1) =>
        (Ret ("Tool error: " ++ e)%string, w1, [ToolExec name input (ToolRaised e)])
    end.

(** [for block in response.content: ...], with [tool_results] the list
    built so far. *)
Fixpoint execute_tool_calls (tool_manager : ToolManager)
    (blocks : list ContentBlock) (tool_results : list ToolResult)
    : M (list ToolResult) :=
  match blocks with
  | [] => ret tool_results
  | TextBlock _ :: rest =>
      execute_tool_calls tool_manager rest tool_results
  | ToolUseBlock id name input :: rest =>
      result <- try_execute_tool tool_manager name input ;;
      execute_tool_calls tool_manager rest
        (tool_results ++
           [ {| tr_type := "tool_result";
                tool_use_id := id;
                tr_content := result |} ])
  end.

(** The [api_params] of a round: tools are added when [tools] is
    truthy. *)
Definition round_params (self : t) (messages : list Message)
    (system_content : string) (tools : option (list ToolSchema))
    : Request :=
  if Py.truthy_list tools then
    {| base := base_params self;
       messages := messages;
       system := system_content;
       tools := tools;
       tool_choice := Some {| choice_type := "auto" |} |}
  else
    {| base := base_params self;
       messages := messages;
       system := system_content;
       tools := None;
       tool_choice := None |}.

(** The parameters of a call without tools: the fast path and the
    synthesis call. *)
Definition plain_params (self : t) (messages : list Message)
    (system_content : string) : Request :=
  {| base := base_params self;
     messages := messages;
     system := system_content;
     tools := None;
     tool_choice := None |}.

(** [for round_num in range(...)] with [rounds] iterations left, followed
    by the synthesis call once the range is exhausted. *)
Fixpoint tool_round_loop (self : t) (rounds : nat)
    (tool_manager : ToolManager) (tools : option (list ToolSchema))
    (system_content : string) (messages : list Message) : M string :=
  match rounds with
  | O =>
      final_response <-
        create self (plain_params self messages system_content) ;;
      return_text final_response
  | S rounds' =>
      response <-
        create self (round_params self messages system_content tools) ;;
      if negb (String.eqb (stop_reason response) "tool_use") then
        return_text response
      else
        let messages1 :=
          messages ++
            [ {| role := "assistant";
                 msg_content := Blocks (content response) |} ] in
        tool_results <-
          execute_tool_calls tool_manager (content response) [] ;;
        tool_round_loop self rounds' tool_manager tools system_content
          (messages1 ++
             [ {| role := "user";
                  msg_content := ToolResults tool_results |} ])
  end.

(** The system string: the prior conversation is appended when there is
    one. *)
Definition system_content_of (conversation_history : option string)
    : string :=
  match conversation_history with
  | Some h =>
      if Py.truthy_str conversation_history then
        (SYSTEM_PROMPT ++ Py.nl ++ Py.nl ++ "Previous conversation:"
           ++ Py.nl ++ h)%string
      else SYSTEM_PROMPT
  | None => SYSTEM_PROMPT
  end.

Definition generate_response (self : t) (query : string)
    (conversation_history : option string)
    (tools : option (list ToolSchema))
    (tool_manager : option ToolManager) : M string :=
  let system_content := system_content_of conversation_history in
  let messages := [ {| role := "user"; msg_content := QueryText query |} ] in
  match tool_manager with
  | None =>
      response <-
        create self (plain_params self messages system_content) ;;
      return_text response
  | Some tm =>
      tool_round_loop self MAX_TOOL_ROUNDS tm tools system_content messages
  end.

End Orchestrator.

Arguments ret {World A} a.
Arguments raise {World A} e.
Arguments bind {World A B} c k.
Arguments mkClient {World} messages_create.
Arguments messages_create {World} c req w.
Arguments mkToolManager {World} execute_tool.
Arguments execute_tool {World} t name input w.
Arguments mkAIGenerator {World} client self_model base_params.
Arguments client {World} t.
Arguments self_model {World} t.
Arguments base_params {World} t.
Arguments init {World} c model.
Arguments create {World} self req w.
Arguments return_text {World} r w.
Arguments try_execute_tool {World} tool_manager name input w.
Arguments execute_tool_calls {World} tool_manager blocks tool_results w.
Arguments round_params {World} self messages system_content tools.
Arguments plain_params {World} self messages system_content.
Arguments tool_round_loop {World} self rounds tool_manager tools
  system_content messages w.
Arguments generate_response {World} self query conversation_history tools
  tool_manager w.

End AIGenerator.

(** ** The similarity store *)

Module VectorStore.

Section Store.

(** The type of distance scores. *)
Variable Distance : Type.

(** The metadata of a fragment. *)
Record Metadata : Type := mkMetadata {
  course_title : string;
  lesson_number : option nat
}.

(** [SearchResults(documents=..., metadata=..., distances=...)], with its
    optional [error]. *)
Record SearchResults : Type := mkSearchResults {
  documents : list string;
  metadata : list Metadata;
  distances : list Distance;
  error : option string
}.

(** [SearchResults.empty(error_msg)]. *)
Definition empty (error_msg : string) : SearchResults :=
  {| documents := []; metadata := []; distances := [];
     error := Some error_msg |}.

Definition is_empty (results : SearchResults) : bool :=
  match documents results with
  | [] => true
  | _ :: _ => false
  end.

(** The filter expression given to the index. *)
Inductive Filter : Type :=
| NoFilter
| CourseIs (title : string)
| LessonIs (lesson : nat)
| CourseAndLesson (title : string) (lesson : nat).

(** What the index returns for a query: the matched fragments as three
    aligned lists, or the exception it raises. *)
Inductive QueryResult : Type :=
| Matches (docs : list string) (metas : list Metadata) (dists : list Distance)
| QueryRaised (msg : string).

(** [self.course_content]: the vector index, with its [query]. *)
Record Collection : Type := mkCollection {
  query : string -> nat -> Filter -> QueryResult
}.

(** The store: the index and the configured result count. *)
Record t : Type := mkVectorStore {
  course_content : Collection;
  max_results : nat
}.

(** Modelled from the spec: [VectorStore._build_filter] of
    [backend/vector_store.py], which is not among the sources.  The filter is
    built from whichever of the course and the lesson are present. *)
Definition _build_filter (course_name : option string)
    (lesson_number : option nat) : Filter :=
  match course_name, lesson_number with
  | None, None => NoFilter
  | Some c, None => CourseIs c
  | None, Some l => LessonIs l
  | Some c, Some l => CourseAndLesson c l
  end.

(** Modelled from the spec: [VectorStore.search] of [backend/vector_store.py],
    which is not among the sources.  The index is queried for the requested
    count of fragments (the override, or else the configured count) under the
    filter; any failure of the query is caught and becomes a result set that
    carries only an error starting with ["Search error: "]. *)
Definition search (self : t) (query_text : string)
    (course_name : option string) (lesson_number : option nat)
    (limit : option nat) : SearchResults :=
  let filter_dict := _build_filter course_name lesson_number in
  let search_limit :=
    match limit with
    | Some n => n
    | None => max_results self
    end in
  match query (course_content self) query_text search_limit filter_dict with
  | Matches docs metas dists =>
      {| documents := docs; metadata := metas; distances := dists;
         error := None |}
  | QueryRaised msg => empty ("Search error: " ++ msg)%string
  end.

End Store.

Arguments mkSearchResults {Distance} documents metadata distances error.
Arguments documents {Distance} s.
Arguments metadata {Distance} s.
Arguments distances {Distance} s.
Arguments error {Distance} s.
Arguments empty {Distance} error_msg.
Arguments is_empty {Distance} results.
Arguments Matches {Distance} docs metas dists.
Arguments QueryRaised {Distance} msg.
Arguments mkCollection {Distance} query.
Arguments query {Distance} c _ _ _.
Arguments mkVectorStore {Distance} course_content max_results.
Arguments course_content {Distance} t.
Arguments max_results {Distance} t.
Arguments search {Distance} self query_text course_name lesson_number limit.

End VectorStore.

(** ** The retrieval tool *)

Module CourseSearchTool.

Import VectorStore.

(** A provenance entry: [{"label": ..., "url": ...}]. *)
Record Source : Type := mkSource {
  label : string;
  url : option string
}.

Section Tool.

Variable Distance : Type.

(** [self.store]: an object with [search], [get_lesson_link] and
    [get_course_link]. *)
Record Store : Type := mkStore {
  store_search :
    string -> option string -> option nat -> SearchResults Distance;
  get_lesson_link : string -> nat -> option string;
  get_course_link : string -> option string
}.

(** The tool instance: its store and its held provenance list. *)
Record t : Type := mkCourseSearchTool {
  store : Store;
  last_sources : list Source
}.

(** A tool as constructed: no provenance yet. *)
Definition init (s : Store) : t := {| store := s; last_sources := [] |}.

(** The label of a fragment: the course title, followed by the lesson number
    when there is one. *)
Definition label_of (m : Metadata) : string :=
  match lesson_number m with
  | Some n => (course_title m ++ " - Lesson " ++ Py.str_of_nat n)%string
  | None => course_title m
  end.

(** The link of a fragment: the lesson link when there is a lesson number,
    else the course link. *)
Definition link_of (s : Store) (m : Metadata) : option string :=
  match lesson_number m with
  | Some n => get_lesson_link s (course_title m) n
  | None => get_course_link s (course_title m)
  end.

Definition source_of (s : Store) (m : Metadata) : Source :=
  {| label := label_of m; url := link_of s m |}.

(** One fragment as a labeled block. *)
Definition format_block (doc : string) (m : Metadata) : string :=
  ("[" ++ label_of m ++ "]" ++ Py.nl ++ doc)%string.

(** [separator.join(parts)]. *)
Fixpoint join (separator : string) (parts : list string) : string :=
  match parts with
  | [] => EmptyString
  | [p] => p
  | p :: rest => (p ++ separator ++ join separator rest)%string
  end.

(** Modelled from the spec: the formatting step of [CourseSearchTool.execute]
    of [backend/search_tools.py], which is not among the sources.  Each
    fragment becomes a labeled block, the blocks are joined by a blank line,
    and the held provenance list is replaced by one entry per fragment. *)
Definition _format_results (self : t) (results : SearchResults Distance)
    : string * t :=
  let fragments := combine (documents results) (metadata results) in
  let formatted := map (fun dm => format_block (fst dm) (snd dm)) fragments in
  let sources := map (fun dm => source_of (store self) (snd dm)) fragments in
  (join (Py.nl ++ Py.nl) formatted,
   {| store := store self; last_sources := sources |}).

(** The filters named by the message for no matches. *)
Definition filter_info (course_name : option string)
    (lesson_number : option nat) : string :=
  ((match course_name with
    | Some c => " in course '" ++ c ++ "'"
    | None => EmptyString
    end) ++
   (match lesson_number with
    | Some n => " in lesson " ++ Py.str_of_nat n
    | None => EmptyString
    end))%string.

(** The tool with its held provenance list overwritten. *)
Definition with_sources (self : t) (sources : list Source) : t :=
  {| store := store self; last_sources := sources |}.

(** Modelled from the spec: [CourseSearchTool.execute] of
    [backend/search_tools.py], which is not among the sources.  An error of
    the search is returned as it is; no match gives the fixed message, naming
    the active filters; otherwise the fragments are formatted.  The held
    provenance list is overwritten by each call with one entry per fragment:
    a call whose search carries an error or no fragment leaves it empty.  The
    result is the text and the tool afterwards. *)
Definition execute (self : t) (query_text : string)
    (course_name : option string) (lesson_number : option nat)
    : string * t :=
  let results :=
    store_search (store self) query_text course_name lesson_number in
  match error results with
  | Some e => (e, with_sources self [])
  | None =>
      if is_empty results then
        (("No relevant content found"
            ++ filter_info course_name lesson_number ++ ".")%string,
         with_sources self [])
      else _format_results self results
  end.

End Tool.

Arguments mkStore {Distance} store_search get_lesson_link get_course_link.
Arguments store_search {Distance} s _ _ _.
Arguments get_lesson_link {Distance} s _ _.
Arguments get_course_link {Distance} s _.
Arguments mkCourseSearchTool {Distance} store last_sources.
Arguments store {Distance} t.
Arguments last_sources {Distance} t.
Arguments init {Distance} s.
Arguments link_of {Distance} s m.
Arguments source_of {Distance} s m.
Arguments _format_results {Distance} self results.
Arguments with_sources {Distance} self sources.
Arguments execute {Distance} self query_text course_name lesson_number.

End CourseSearchTool.

(** ** Vocabulary of the statements *)

(** What a provider call's result gives when its text is the answer: the text
    of the first block, or the exception that leaves the call. *)
Definition answer_of (res : ProviderResult) : Outcome string :=
  match res with
  | Responded r => AIGenerator.content0_text r
  | ProviderRaised m => Raise (ProviderError m)
  end.

(** The response asks for another tool round. *)
Definition requests_tools (res : ProviderResult) : Prop :=
  exists r, res = Responded r /\ stop_reason r = "tool_use".

(** The first content block of the response is a text block. *)
Definition leading_text (r : Response) : Prop :=
  exists text rest, content r = TextBlock text :: rest.

(** The text a tool call contributes to the conversation. *)
Definition result_text (out : ToolOutcome) : string :=
  match out with
  | Returned s => s
  | ToolRaised msg => ("Tool error: " ++ msg)%string
  end.

(** The tool-use blocks among the content blocks, in their order. *)
Definition is_tool_use (b : ContentBlock) : bool :=
  String.eqb (block_type b) "tool_use".

Definition tool_use_blocks (bs : list ContentBlock) : list ContentBlock :=
  filter is_tool_use bs.

(** The call a tool-use block asks for, its id, and the same for a recorded
    execution. *)
Definition call_of_block (b : ContentBlock) : option (string * ToolInput) :=
  match b with
  | TextBlock _ => None
  | ToolUseBlock _ name input => Some (name, input)
  end.

Definition id_of_block (b : ContentBlock) : option string :=
  match b with
  | TextBlock _ => None
  | ToolUseBlock id _ _ => Some id
  end.

Definition call_of_event (e : Event) : option (string * ToolInput) :=
  match e with
  | ProviderCall _ _ => None
  | ToolExec name input _ => Some (name, input)
  end.

Definition text_of_event (e : Event) : option string :=
  match e with
  | ProviderCall _ _ => None
  | ToolExec _ _ out => Some (result_text out)
  end.

(** The turns the orchestrator appends to the conversation. *)
Definition user_turn (query : string) : Message :=
  {| role := "user"; msg_content := QueryText query |}.

Definition assistant_turn (bs : list ContentBlock) : Message :=
  {| role := "assistant"; msg_content := Blocks bs |}.

Definition tool_result_turn (rs : list ToolResult) : Message :=
  {| role := "user"; msg_content := ToolResults rs |}.

(** A turn that carries the blocks of a response or the results of tools,
    not a text of its own. *)
Definition derived_turn (m : Message) : Prop :=
  (exists bs, m = assistant_turn bs) \/ (exists rs, m = tool_result_turn rs).

Section Runs.

Variable World : Type.

Definition Run (A : Type) : Type := (Outcome A * World * list Event)%type.

Definition outcome_of {A : Type} (r : Run A) : Outcome A := fst (fst r).
Definition world_of {A : Type} (r : Run A) : World := snd (fst r).
Definition trace_of {A : Type} (r : Run A) : list Event := snd r.

(** The provider answers every request, and with a leading text block
    whenever the response does not ask for a tool or the request offered
    none. *)
Definition provider_contract (c : AIGenerator.Client World) : Prop :=
  forall req w, exists r w',
    AIGenerator.messages_create c req w = (Responded r, w') /\
    (stop_reason r <> "tool_use" \/ tools req = None -> leading_text r).

Variable tool_manager : AIGenerator.ToolManager World.

(** [dispatched bs evs rs]: going through the blocks [bs] in order, each
    tool-use block is executed once (the events [evs]) and contributes one
    result carrying its id (the results [rs]); text blocks contribute
    nothing. *)
Inductive dispatched
  : list ContentBlock -> list Event -> list ToolResult -> Prop :=
| dispatched_nil : dispatched [] [] []
| dispatched_text text bs evs rs :
    dispatched bs evs rs ->
    dispatched (TextBlock text :: bs) evs rs
| dispatched_tool id name input out w w' bs evs rs :
    AIGenerator.execute_tool tool_manager name input w = (out, w') ->
    dispatched bs evs rs ->
    dispatched (ToolUseBlock id name input :: bs)
      (ToolExec name input out :: evs)
      ({| tr_type := "tool_result";
          tool_use_id := id;
          tr_content := result_text out |} :: rs).

Variable self : AIGenerator.t World.
Variable tools_arg : option (list ToolSchema).
Variable system_content : string.

(** [round_trace k msgs tr out]: the calls [tr] and the outcome [out] of the
    loop entered with [k] rounds left and the conversation [msgs]. *)
Inductive round_trace
  : nat -> list Message -> list Event -> Outcome string -> Prop :=
| round_trace_synthesis msgs res w w' :
    AIGenerator.messages_create (AIGenerator.client self)
      (AIGenerator.plain_params self msgs system_content) w
      = (res, w') ->
    round_trace 0 msgs
      [ProviderCall (AIGenerator.plain_params self msgs system_content) res]
      (answer_of res)
| round_trace_answer k msgs res w w' :
    AIGenerator.messages_create (AIGenerator.client self)
      (AIGenerator.round_params self msgs system_content tools_arg) w
      = (res, w') ->
    ~ requests_tools res ->
    round_trace (S k) msgs
      [ProviderCall
         (AIGenerator.round_params self msgs system_content tools_arg)
         res]
      (answer_of res)
| round_trace_tools k msgs r w w' evs rs tr out :
    AIGenerator.messages_create (AIGenerator.client self)
      (AIGenerator.round_params self msgs system_content tools_arg) w
      = (Responded r, w') ->
    stop_reason r = "tool_use" ->
    dispatched (content r) evs rs ->
    round_trace k
      ((msgs ++ [assistant_turn (content r)]) ++ [tool_result_turn rs])
      tr out ->
    round_trace (S k) msgs
      (ProviderCall
         (AIGenerator.round_params self msgs system_content tools_arg)
         (Responded r) :: evs ++ tr)
      out.

End Runs.

Arguments outcome_of {World A} r.
Arguments world_of {World A} r.
Arguments trace_of {World A} r.

(** ** The requests of a query *)

Section Requests.

Variable World : Type.
Variable self : AIGenerator.t World.

(** The request of the fast path and of the synthesis call, and the request
    of a round, on the seeded conversation. *)
Definition plain_request (query : string) (history : option string) : Request :=
  AIGenerator.plain_params self [user_turn query]
    (AIGenerator.system_content_of history).

Definition round_request (query : string) (history : option string)
    (tools_arg : option (list ToolSchema)) : Request :=
  AIGenerator.round_params self [user_turn query]
    (AIGenerator.system_content_of history) tools_arg.

(** The first request of a query. *)
Definition first_request (query : string) (history : option string)
    (tools_arg : option (list ToolSchema))
    (tool_manager : option (AIGenerator.ToolManager World)) : Request :=
  match tool_manager with
  | None => plain_request query history
  | Some _ => round_request query history tools_arg
  end.

End Requests.

Arguments plain_request {World} self query history.
Arguments round_request {World} self query history tools_arg.
Arguments first_request {World} self query history tools_arg tool_manager.

(** ** Collaborators of the test suite

    The stand-ins of [backend/tests/test_ai_generator.py] and
    [backend/tests/test_rag_system.py], used to run the definitions on
    concrete inputs. *)

Module Scenarios.

(** [_text_response]. *)
Definition _text_response (text : string) : Response :=
  {| stop_reason := "end_turn"; content := [TextBlock text] |}.

(** [_tool_use_response]: an absent or empty [inputs] is replaced by
    [{"query": "test"}]. *)
Definition _tool_use_response (tool_name tool_id : string)
    (inputs : ToolInput) : Response :=
  {| stop_reason := "tool_use";
     content :=
       [ToolUseBlock tool_id tool_name
          (match inputs with
           | [] => [("query", JStr "test")]
           | _ :: _ => inputs
           end)] |}.

(** A client whose [messages.create] has a [side_effect] list: the world is
    the list of the results still to give; once it is used up the call
    raises. *)
Definition scripted_client : AIGenerator.Client (list ProviderResult) :=
  AIGenerator.mkClient
    (fun _ w =>
       match w with
       | res :: rest => (res, rest)
       | [] => (ProviderRaised "StopIteration", [])
       end).

(** [tool_manager.execute_tool.return_value = result]. *)
Definition returning_tools {World : Type} (result : string)
    : AIGenerator.ToolManager World :=
  AIGenerator.mkToolManager (fun _ _ w => (Returned result, w)).

(** [tool_manager.execute_tool.side_effect = Exception(msg)]. *)
Definition raising_tools {World : Type} (msg : string)
    : AIGenerator.ToolManager World :=
  AIGenerator.mkToolManager (fun _ _ w => (ToolRaised msg, w)).

(** [AIGenerator(api_key="test-key", model="test-model")] on a client. *)
Definition generator {World : Type} (c : AIGenerator.Client World)
    : AIGenerator.t World :=
  AIGenerator.init c "test-model".

(** The tool list of the tests. *)
Definition search_tools : option (list ToolSchema) :=
  Some [ {| schema_name := "search_course_content";
            schema_description := "...";
            input_schema := [] |} ].

(** A provider that asks for a search, twice in one turn, whenever tools are
    offered, and answers in text otherwise.  The world counts the tool
    executions. *)
Definition eager_response : Response :=
  {| stop_reason := "tool_use";
     content :=
       [ TextBlock "Let me search.";
         ToolUseBlock "tu_001" "search_course_content"
           [("query", JStr "first")];
         ToolUseBlock "tu_002" "get_course_outline"
           [("course_name", JStr "MCP")] ] |}.

Definition eager_client : AIGenerator.Client nat :=
  AIGenerator.mkClient
    (fun req w =>
       match tools req with
       | Some _ => (Responded eager_response, w)
       | None => (Responded (_text_response "Done"), w)
       end).

(** A tool manager that knows one tool only: any other name raises. *)
Definition one_tool_manager : AIGenerator.ToolManager nat :=
  AIGenerator.mkToolManager
    (fun name _ w =>
       if String.eqb name "search_course_content"
       then (Returned "search results here", S w)
       else (ToolRaised ("Tool '" ++ name ++ "' not found")%string, S w)).

(** The run of a query in which the provider asks for tools as long as they
    are offered. *)
Definition eager_run : Outcome string * nat * list Event :=
  AIGenerator.generate_response (generator eager_client) "test" None
    search_tools (Some one_tool_manager) 0.


(** A query without a tool manager, on a provider that answers once. *)
Definition plain_run (history : option string)
    : Outcome string * list ProviderResult * list Event :=
  AIGenerator.generate_response (generator scripted_client) "What is Python?"
    history search_tools None [Responded (_text_response "Hello world")].

(** [test_two_sequential_tool_calls_*]: two tool rounds, then the
    synthesis. *)
Definition two_round_run
    : Outcome string * list ProviderResult * list Event :=
  AIGenerator.generate_response (generator scripted_client) "test" None
    search_tools (Some (returning_tools "result"))
    [ Responded
        (_tool_use_response "search_course_content" "t1"
           [("query", JStr "first")]);
      Responded
        (_tool_use_response "search_course_content" "t2"
           [("query", JStr "second")]);
      Responded (_text_response "Synthesized answer") ].

(** [test_tool_error_*]: the tool raises, the provider then answers. *)
Definition tool_error_run
    : Outcome string * list ProviderResult * list Event :=
  AIGenerator.generate_response (generator scripted_client) "test" None
    search_tools (Some (raising_tools "search failed"))
    [ Responded
        (_tool_use_response "search_course_content" "err_tool"
           [("query", JStr "test")]);
      Responded (_text_response "Recovered response") ].

(** [test_generate_response_makes_two_api_calls_when_tool_used]: a tool
    manager but no tool list. *)
Definition no_schema_run
    : Outcome string * list ProviderResult * list Event :=
  AIGenerator.generate_response (generator scripted_client) "test" None
    None (Some (returning_tools "tool output"))
    [ Responded
        (_tool_use_response "search_course_content" "tu_001"
           [("query", JStr "test")]);
      Responded (_text_response "Final answer") ].

(** Whether the request of an event carries tools, and the tool results a
    request was sent with. *)
Definition offers_tools (e : Event) : bool :=
  match e with
  | ProviderCall req _ =>
      match tools req with Some _ => true | None => false end
  | ToolExec _ _ _ => false
  end.

Definition results_sent (e : Event) : list ToolResult :=
  match e with
  | ProviderCall req _ =>
      flat_map
        (fun m =>
           match msg_content m with
           | ToolResults rs => rs
           | _ => []
           end)
        (messages req)
  | ToolExec _ _ _ => []
  end.

(** The index of [test_query_pipeline_with_zero_max_results_search_error]: it
    raises for a count of zero and returns one fragment otherwise. *)
Definition mock_collection {Distance : Type} (d : Distance)
    : VectorStore.Collection Distance :=
  VectorStore.mkCollection
    (fun _ n_results _ =>
       match n_results with
       | O =>
           VectorStore.QueryRaised
             "Number of requested results 0 is less than the smallest sample size 1"
       | S _ =>
           VectorStore.Matches
             ["Python is a versatile programming language."]
             [VectorStore.mkMetadata "Python Fundamentals" (Some 1)]
             [d]
       end).

(** The store of [test_course_search_tool.py]: the search gives a result set
    fixed beforehand, and the links are fixed. *)
Definition mock_store {Distance : Type}
    (results : VectorStore.SearchResults Distance)
    (lesson_link : string) : CourseSearchTool.Store Distance :=
  CourseSearchTool.mkStore
    (fun _ _ _ => results)
    (fun _ _ => Some lesson_link)
    (fun _ => Some "http://example.com/course").

(** [make_search_results]. *)
Definition make_search_results (docs : list string) (course_title : string)
    (lesson_num : nat) : VectorStore.SearchResults nat :=
  VectorStore.mkSearchResults docs
    (map (fun _ => VectorStore.mkMetadata course_title (Some lesson_num)) docs)
    (map (fun _ => 1) docs)
    None.

(** The tool of [test_execute_populates_last_sources_after_success], here
    holding the provenance of an earlier call. *)
Definition tool_after_earlier_call : CourseSearchTool.t nat :=
  CourseSearchTool.mkCourseSearchTool
    (mock_store (make_search_results ["content"] "Course A" 3)
       "http://example.com/lesson3")
    [ CourseSearchTool.mkSource "Old Course - Lesson 9" None;
      CourseSearchTool.mkSource "Old Course" None ].

(** The tool of [test_execute_does_not_populate_sources_on_error]. *)
Definition tool_with_failing_search : CourseSearchTool.t nat :=
  CourseSearchTool.init
    (mock_store (VectorStore.empty "Search error: failure")
       "http://example.com/lesson").

(** The store of [test_vector_store_search_returns_error_when_limit_is_zero]:
    a configured result count of zero. *)
Definition zero_limit_store : VectorStore.t nat :=
  VectorStore.mkVectorStore (mock_collection 1) 0.

End Scenarios.

(** ** Counting along a run *)

(** The response recorded by the event asks for tools. *)
Definition asks_tools (e : Event) : bool :=
  match e with
  | ProviderCall _ (Responded r) => String.eqb (stop_reason r) "tool_use"
  | _ => false
  end.

(** The number of tool-use blocks in the response recorded by the event,
    when that response asks for tools. *)
Definition blocks_asked (e : Event) : nat :=
  match e with
  | ProviderCall _ (Responded r) =>
      if String.eqb (stop_reason r) "tool_use"
      then length (tool_use_blocks (content r))
      else 0
  | _ => 0
  end.

(** The calls asked for by the response recorded by the event, in block
    order, when that response asks for tools. *)
Definition calls_asked (e : Event) : list (option (string * ToolInput)) :=
  match e with
  | ProviderCall _ (Responded r) =>
      if String.eqb (stop_reason r) "tool_use"
      then map call_of_block (tool_use_blocks (content r))
      else []
  | _ => []
  end.

(** The roles of a conversation that was extended by [n] tool rounds. *)
Definition roles_after (n : nat) : list string :=
  "user" :: concat (repeat ["assistant"; "user"] n).

(** ** The query route of the test application

    The route [POST /api/query] that the [api_client] fixture of
    [backend/tests/conftest.py] builds on a stand-in of the RAG system. *)

Module Api.

(** [QueryRequest]. *)
Record QueryRequest : Type := mkQueryRequest {
  query : string;
  session_id : option string
}.

(** [Source]. *)
Record Source : Type := mkSource {
  label : string;
  url : option string
}.

(** [QueryResponse]. *)
Record QueryResponse : Type := mkQueryResponse {
  answer : string;
  sources : list Source;
  response_session_id : string
}.

(** How a call to the RAG system ends: with a value, or with an [Exception]
    whose [str()] is [msg]. *)
Inductive Called (A : Type) : Type :=
| Gave (a : A)
| Threw (msg : string).
Arguments Gave {A} a.
Arguments Threw {A} msg.

(** How the route ends: with the response body (status 200), or with
    [HTTPException(status_code, detail)]. *)
Inductive HttpResult : Type :=
| Ok200 (body : QueryResponse)
| HTTPException (status_code : nat) (detail : string).

(** The calls made to the RAG system, in order. *)
Inductive ApiEvent : Type :=
| CreateSession (res : Called string)
| RagQuery (query : string) (session_id : string)
    (res : Called (string * list Source)).

Section App.

Variable World : Type.

(** The stand-in of the RAG system: [session_manager.create_session] and
    [query]. *)
Record RagSystem : Type := mkRagSystem {
  create_session : World -> Called string * World;
  rag_query :
    string -> string -> World -> Called (string * list Source) * World
}.

(** The second half of the route, once the session id is known. *)
Definition answer_query (rag : RagSystem) (request : QueryRequest)
    (sid : string) (w : World) (tr : list ApiEvent)
    : HttpResult * World * list ApiEvent :=
  match rag_query rag (query request) sid w with
  | (Gave (answer, sources), w1) =>
      (Ok200 {| answer := answer; sources := sources;
                response_session_id := sid |},
       w1,
       tr ++ [RagQuery (query request) sid (Gave (answer, sources))])
  | (Threw msg, w1) =>
      (HTTPException 500 msg, w1,
       tr ++ [RagQuery (query request) sid (Threw msg)])
  end.

(** [query_documents]: a session is created when the request has no
    session id (none, or the empty string).  The whole body is inside [try],
    and any [Exception] becomes
    [HTTPException(status_code=500, detail=str(e))].  The route is modelled
    from a request that passed validation and for a RAG system whose values
    have the types the response model declares: the rejection of a request
    body and the failure of building [QueryResponse] are outside this
    definition. *)
Definition query_documents (rag : RagSystem) (request : QueryRequest)
    (w : World) : HttpResult * World * list ApiEvent :=
  match session_id request with
  | Some (String c s) => answer_query rag request (String c s) w []
  | _ =>
      match create_session rag w with
      | (Gave sid, w1) =>
          answer_query rag request sid w1 [CreateSession (Gave sid)]
      | (Threw msg, w1) =>
          (HTTPException 500 msg, w1, [CreateSession (Threw msg)])
      end
  end.

End App.

Arguments mkRagSystem {World} create_session rag_query.
Arguments create_session {World} r w.
Arguments rag_query {World} r _ _ w.
Arguments answer_query {World} rag request sid w tr.
Arguments query_documents {World} rag request w.

End Api.

(** ** Further collaborators of the test suite *)

Module MoreScenarios.

(** A provider whose script ends after it has asked for a tool: the second
    call raises. *)
Definition failing_run : Outcome string * list ProviderResult * list Event :=
  AIGenerator.generate_response
    (Scenarios.generator Scenarios.scripted_client) "test" None
    Scenarios.search_tools (Some (Scenarios.returning_tools "result"))
    [ Responded
        (Scenarios._tool_use_response "search_course_content" "t1"
           [("query", JStr "first")]) ].

(** A response that stops for tool use but holds no tool-use block. *)
Definition hollow_response : Response :=
  {| stop_reason := "tool_use"; content := [TextBlock "Searching."] |}.

Definition hollow_run : Outcome string * list ProviderResult * list Event :=
  AIGenerator.generate_response
    (Scenarios.generator Scenarios.scripted_client) "test" None
    Scenarios.search_tools (Some (Scenarios.returning_tools "result"))
    [ Responded hollow_response;
      Responded (Scenarios._text_response "Done") ].

(** A provider that asks for a tool on every call, the synthesis call
    included, with responses that hold a tool-use block only. *)
Definition insistent_run
    : Outcome string * list ProviderResult * list Event :=
  AIGenerator.generate_response
    (Scenarios.generator Scenarios.scripted_client) "test" None
    Scenarios.search_tools (Some (Scenarios.returning_tools "result"))
    [ Responded
        (Scenarios._tool_use_response "search_course_content" "t1"
           [("query", JStr "first")]);
      Responded
        (Scenarios._tool_use_response "search_course_content" "t2"
           [("query", JStr "second")]);
      Responded
        (Scenarios._tool_use_response "search_course_content" "t3"
           [("query", JStr "third")]) ].

(** A tool that holds the provenance of an earlier call and whose next
    search fails, and one whose next search finds nothing. *)
Definition stale_tool_with_failing_search : CourseSearchTool.t nat :=
  CourseSearchTool.mkCourseSearchTool
    (Scenarios.mock_store (VectorStore.empty "Search error: failure")
       "http://example.com/lesson")
    [ CourseSearchTool.mkSource "Old Course - Lesson 9" None ].

Definition stale_tool_without_matches : CourseSearchTool.t nat :=
  CourseSearchTool.mkCourseSearchTool
    (Scenarios.mock_store (VectorStore.mkSearchResults [] [] [] None)
       "http://example.com/lesson")
    [ CourseSearchTool.mkSource "Old Course - Lesson 9" None ].

(** [mock_rag_system]: the world counts the sessions created so far. *)
Definition mock_rag_system (answer : string) (sources : list Api.Source)
    : Api.RagSystem nat :=
  Api.mkRagSystem
    (fun w => (Api.Gave "test-session-id", S w))
    (fun _ _ w => (Api.Gave (answer, sources), w)).

End MoreScenarios.

(** ** The inner loop: tool dispatch *)

Section ToolDispatch.

Variable World : Type.
Variable tool_manager : AIGenerator.ToolManager World.

(** Text blocks are skipped by the loop. *)
Lemma execute_tool_calls_text text rest acc w :
  AIGenerator.execute_tool_calls tool_manager (TextBlock text :: rest) acc w
  = AIGenerator.execute_tool_calls tool_manager rest acc w.
Proof. reflexivity. Qed.

(** One step of the loop on a tool-use block. *)
Lemma execute_tool_calls_tool id name input rest acc w :
  AIGenerator.execute_tool_calls tool_manager
    (ToolUseBlock id name input :: rest) acc w
  = let '(out, w1) := AIGenerator.execute_tool tool_manager name input w in
    let '(o, w2, tr) :=
      AIGenerator.execute_tool_calls tool_manager rest
        (acc ++ [ {| tr_type := "tool_result";
                     tool_use_id := id;
                     tr_content := result_text out |} ]) w1 in
    (o, w2, ToolExec name input out :: tr).
Proof.
  cbn [AIGenerator.execute_tool_calls].
  unfold AIGenerator.bind, AIGenerator.try_execute_tool.
  destruct (AIGenerator.execute_tool tool_manager name input w) as [out w1].
  destruct out as [s | msg]; cbn [result_text];
    destruct (AIGenerator.execute_tool_calls _ _ _ w1) as [[o w2] tr];
    reflexivity.
Qed.

(** The loop never raises: whatever the tools do, it ends with the results
    built so far followed by one result per tool-use block, in order. *)
Lemma execute_tool_calls_dispatched blocks :
  forall acc w, exists rs w' evs,
    AIGenerator.execute_tool_calls tool_manager blocks acc w
      = (Ret (acc ++ rs), w', evs)
    /\ dispatched World tool_manager blocks evs rs.
Proof.
  induction blocks as [| b rest IH]; intros acc w.
  - exists [], w, []. split; [| constructor].
    cbn. unfold AIGenerator.ret. now rewrite app_nil_r.
  - destruct b as [text | id name input].
    + rewrite execute_tool_calls_text.
      destruct (IH acc w) as (rs & w' & evs & Heq & Hd).
      exists rs, w', evs. split; [exact Heq | now constructor].
    + rewrite execute_tool_calls_tool.
      destruct (AIGenerator.execute_tool tool_manager name input w)
        as [out w1] eqn:Hexec.
      destruct (IH (acc ++ [ {| tr_type := "tool_result";
                                tool_use_id := id;
                                tr_content := result_text out |} ]) w1)
        as (rs & w' & evs & Heq & Hd).
      rewrite Heq.
      eexists (_ :: rs), w', (_ :: evs). split.
      * now rewrite <- app_assoc.
      * econstructor; eassumption.
Qed.

(** Properties carried by [dispatched]. *)

Lemma dispatched_all_tool_execs blocks evs rs :
  dispatched World tool_manager blocks evs rs ->
  Forall (fun e => is_tool_exec e = true) evs.
Proof. induction 1; auto. Qed.

Lemma dispatched_no_provider_call blocks evs rs :
  dispatched World tool_manager blocks evs rs ->
  provider_calls evs = [].
Proof. induction 1; cbn; auto. Qed.

Lemma dispatched_lengths blocks evs rs :
  dispatched World tool_manager blocks evs rs ->
  length evs = length (tool_use_blocks blocks)
  /\ length rs = length (tool_use_blocks blocks).
Proof.
  unfold tool_use_blocks; induction 1; cbn; auto.
  destruct IHdispatched. split; congruence.
Qed.

(** The executions follow the order of the tool-use blocks, and the
    results carry their ids and texts. *)

Lemma dispatched_order blocks evs rs :
  dispatched World tool_manager blocks evs rs ->
  map call_of_event evs = map call_of_block (tool_use_blocks blocks).
Proof. unfold tool_use_blocks; induction 1; cbn; congruence. Qed.

Lemma dispatched_ids blocks evs rs :
  dispatched World tool_manager blocks evs rs ->
  map (fun r => Some (tool_use_id r)) rs
    = map id_of_block (tool_use_blocks blocks).
Proof. unfold tool_use_blocks; induction 1; cbn; congruence. Qed.

Lemma dispatched_contents blocks evs rs :
  dispatched World tool_manager blocks evs rs ->
  map (fun r => Some (tr_content r)) rs = map text_of_event evs.
Proof. unfold tool_use_blocks; induction 1; cbn; congruence. Qed.

Lemma dispatched_types blocks evs rs :
  dispatched World tool_manager blocks evs rs ->
  Forall (fun r => tr_type r = "tool_result") rs.
Proof. induction 1; auto. Qed.

End ToolDispatch.

(** ** The round loop *)

Section RoundLoop.

Variable World : Type.
Variable self : AIGenerator.t World.
Variable tool_manager : AIGenerator.ToolManager World.
Variable tools_arg : option (list ToolSchema).
Variable system_content : string.

Local Abbreviation loop k msgs w :=
  (AIGenerator.tool_round_loop self k tool_manager tools_arg system_content
     msgs w).
Local Abbreviation provider req w :=
  (AIGenerator.messages_create (AIGenerator.client self) req w).
Local Abbreviation plain msgs :=
  (AIGenerator.plain_params self msgs system_content).
Local Abbreviation offer msgs :=
  (AIGenerator.round_params self msgs system_content tools_arg).

(** The call without tools, followed by reading the text of the answer. *)
Lemma create_then_text req w :
  AIGenerator.bind (AIGenerator.create self req)
    (fun response => AIGenerator.return_text response) w
  = (answer_of (fst (provider req w)), snd (provider req w),
     [ProviderCall req (fst (provider req w))]).
Proof.
  unfold AIGenerator.bind, AIGenerator.create, AIGenerator.return_text.
  destruct (AIGenerator.messages_create _ req w) as [[r | m] w1];
    reflexivity.
Qed.

Lemma loop_synthesis msgs w :
  loop 0 msgs w
  = (answer_of (fst (provider (plain msgs) w)),
     snd (provider (plain msgs) w),
     [ProviderCall (plain msgs) (fst (provider (plain msgs) w))]).
Proof. apply create_then_text. Qed.

Lemma requests_tools_eqb r :
  String.eqb (stop_reason r) "tool_use" = true <->
  requests_tools (Responded r).
Proof.
  rewrite String.eqb_eq. split.
  - intros H. now exists r.
  - intros (r' & Heq & H). now inversion Heq; subst.
Qed.

(** A round whose response does not ask for tools ends the query. *)
Lemma loop_answer k msgs w res w' :
  provider (offer msgs) w = (res, w') ->
  ~ requests_tools res ->
  loop (S k) msgs w
  = (answer_of res, w', [ProviderCall (offer msgs) res]).
Proof.
  intros Hp Hn. cbn [AIGenerator.tool_round_loop].
  unfold AIGenerator.bind at 1. unfold AIGenerator.create.
  rewrite Hp.
  destruct res as [r | m]; [| reflexivity].
  destruct (String.eqb (stop_reason r) "tool_use") eqn:E.
  - exfalso. apply Hn. now apply requests_tools_eqb.
  - reflexivity.
Qed.

(** A round whose response asks for tools: the assistant turn and one turn
    of tool results are appended, and the loop goes on with one round
    less. *)
Lemma loop_tools k msgs w r w1 :
  provider (offer msgs) w = (Responded r, w1) ->
  stop_reason r = "tool_use" ->
  exists rs w2 evs,
    AIGenerator.execute_tool_calls tool_manager (content r) [] w1
      = (Ret rs, w2, evs)
    /\ dispatched World tool_manager (content r) evs rs
    /\ loop (S k) msgs w
       = let next :=
           loop k
             ((msgs ++ [assistant_turn (content r)])
                ++ [tool_result_turn rs]) w2 in
         (outcome_of next, world_of next,
          ProviderCall (offer msgs) (Responded r) :: evs ++ trace_of next).
Proof.
  intros Hp Hs.
  destruct (execute_tool_calls_dispatched World tool_manager (content r) [] w1)
    as (rs & w2 & evs & Hexec & Hd).
  cbn [app] in Hexec.
  exists rs, w2, evs. split; [exact Hexec |]. split; [exact Hd |].
  cbn [AIGenerator.tool_round_loop].
  unfold AIGenerator.bind at 1. unfold AIGenerator.create.
  rewrite Hp.
  apply String.eqb_eq in Hs. rewrite Hs. cbn [negb].
  unfold AIGenerator.bind at 1. rewrite Hexec.
  unfold assistant_turn, tool_result_turn.
  destruct (AIGenerator.tool_round_loop self k _ _ _ _ w2) as [[o w3] tr].
  reflexivity.
Qed.

(** Every run of the loop is described by [round_trace]. *)
Lemma loop_round_trace k :
  forall msgs w,
    round_trace World tool_manager self tools_arg system_content k msgs
      (trace_of (loop k msgs w)) (outcome_of (loop k msgs w)).
Proof.
  induction k as [| k IH]; intros msgs w.
  - rewrite loop_synthesis. cbn.
    destruct (provider (plain msgs) w) as [res w'] eqn:Hp. cbn.
    econstructor. exact Hp.
  - destruct (provider (offer msgs) w) as [res w1] eqn:Hp.
    destruct res as [r | m].
    + destruct (String.eqb (stop_reason r) "tool_use") eqn:E.
      * apply String.eqb_eq in E.
        destruct (loop_tools k msgs w r w1 Hp E)
          as (rs & w2 & evs & _ & Hd & Heq).
        rewrite Heq. cbn.
        eapply round_trace_tools; eauto.
      * assert (Hn : ~ requests_tools (Responded r)).
        { intros H. apply requests_tools_eqb in H. congruence. }
        rewrite (loop_answer k msgs w _ _ Hp Hn). cbn.
        eapply round_trace_answer; eauto.
    + assert (Hn : ~ requests_tools (ProviderRaised m)).
      { intros (r & Heq & _). discriminate. }
      rewrite (loop_answer k msgs w _ _ Hp Hn). cbn.
      eapply round_trace_answer; eauto.
Qed.

End RoundLoop.

(** ** What every run of the loop satisfies *)

Section RoundTraceFacts.

Variable World : Type.
Variable tool_manager : AIGenerator.ToolManager World.
Variable self : AIGenerator.t World.
Variable tools_arg : option (list ToolSchema).
Variable system_content : string.

Local Abbreviation rtrace :=
  (round_trace World tool_manager self tools_arg system_content).

Lemma provider_calls_app tr1 tr2 :
  provider_calls (tr1 ++ tr2) = provider_calls tr1 ++ provider_calls tr2.
Proof. apply filter_app. Qed.

Lemma provider_calls_round req res evs rs blocks tr :
  dispatched World tool_manager blocks evs rs ->
  provider_calls (ProviderCall req res :: evs ++ tr)
  = ProviderCall req res :: provider_calls tr.
Proof.
  intros Hd. cbn. rewrite provider_calls_app.
  now rewrite (dispatched_no_provider_call _ _ _ _ _ Hd).
Qed.

(** The requests of the loop: what a round offers, and what it never
    carries once [tools] is falsy. *)
Lemma round_params_messages msgs :
  messages (AIGenerator.round_params self msgs system_content tools_arg) = msgs.
Proof.
  unfold AIGenerator.round_params.
  now destruct (Py.truthy_list tools_arg).
Qed.

Lemma round_params_system msgs :
  system (AIGenerator.round_params self msgs system_content tools_arg)
  = system_content.
Proof.
  unfold AIGenerator.round_params.
  now destruct (Py.truthy_list tools_arg).
Qed.

Lemma round_params_tools msgs :
  tools (AIGenerator.round_params self msgs system_content tools_arg)
  = (if Py.truthy_list tools_arg then tools_arg else None)
  /\ tool_choice (AIGenerator.round_params self msgs system_content tools_arg)
     = (if Py.truthy_list tools_arg
        then Some {| choice_type := "auto" |} else None).
Proof.
  unfold AIGenerator.round_params.
  now destruct (Py.truthy_list tools_arg).
Qed.

(** The first call of the loop is an inference call on the conversation the
    loop was entered with. *)
Lemma round_trace_head k msgs tr out :
  rtrace k msgs tr out ->
  exists req res rest,
    tr = ProviderCall req res :: rest
    /\ messages req = msgs /\ system req = system_content.
Proof.
  destruct 1; do 3 eexists; (split; [reflexivity |]);
    cbn; auto using round_params_messages, round_params_system.
Qed.

(** At most one inference call per round left, plus the synthesis call. *)
Lemma round_trace_calls_bound k msgs tr out :
  rtrace k msgs tr out ->
  1 <= length (provider_calls tr) <= k + 1.
Proof.
  induction 1 as [msgs res w w' Hp | k msgs res w w' Hp Hn
                 | k msgs r w w' evs rs tr out Hp Hs Hd Hr IH].
  - cbn. lia.
  - cbn. lia.
  - rewrite (provider_calls_round _ _ _ _ _ _ Hd). cbn [length]. lia.
Qed.

(** When the provider keeps its contract the loop ends with an answer. *)
Lemma round_trace_answers k msgs tr out :
  provider_contract World (AIGenerator.client self) ->
  rtrace k msgs tr out ->
  exists s, out = Ret s.
Proof.
  intros Hc.
  induction 1 as [msgs res w w' Hp | k msgs res w w' Hp Hn
                 | k msgs r w w' evs rs tr out Hp Hs Hd Hr IH].
  - destruct (Hc (AIGenerator.plain_params self msgs system_content) w)
      as (r & w1 & Hr & Hlead).
    rewrite Hr in Hp. inversion Hp; subst res w'.
    destruct Hlead as (text & rest & Hcont); [now right |].
    exists text. cbn. unfold AIGenerator.content0_text. now rewrite Hcont.
  - destruct (Hc (AIGenerator.round_params self msgs system_content tools_arg) w)
      as (r & w1 & Hr & Hlead).
    rewrite Hr in Hp. inversion Hp; subst res w'.
    destruct Hlead as (text & rest & Hcont).
    { left. intros Hs. apply Hn. now exists r. }
    exists text. cbn. unfold AIGenerator.content0_text. now rewrite Hcont.
  - exact IH.
Qed.

(** Tools are offered in the rounds only; the call made once the rounds are
    used up offers none, and its text is the outcome. *)
Lemma round_trace_tools_only_in_rounds k msgs tr out :
  rtrace k msgs tr out ->
  forall i req res,
    nth_error (provider_calls tr) i = Some (ProviderCall req res) ->
    (i < k ->
       tools req = (if Py.truthy_list tools_arg then tools_arg else None)
       /\ tool_choice req
          = (if Py.truthy_list tools_arg
             then Some {| choice_type := "auto" |} else None))
    /\ (k <= i ->
          i = k /\ tools req = None /\ tool_choice req = None
          /\ out = answer_of res).
Proof.
  induction 1 as [msgs res0 w w' Hp | k msgs res0 w w' Hp Hn
                 | k msgs r w w' evs rs tr out Hp Hs Hd Hr IH];
    intros i req res Hnth.
  - destruct i as [| i]; cbn in Hnth.
    + inversion Hnth; subst. split; [lia |]. intros _. now cbn.
    + now destruct i.
  - destruct i as [| i]; cbn in Hnth.
    + inversion Hnth; subst. split; [| lia].
      intros _. apply round_params_tools.
    + now destruct i.
  - rewrite (provider_calls_round _ _ _ _ _ _ Hd) in Hnth.
    destruct i as [| i]; cbn in Hnth.
    + inversion Hnth; subst. split; [| lia].
      intros _. apply round_params_tools.
    + destruct (IH i req res Hnth) as [Hlt Hge]. split.
      * intros Hi. apply Hlt. lia.
      * intros Hi. destruct Hge as (-> & Ht & Hc & Ho); [lia |]. auto.
Qed.

End RoundTraceFacts.

(** ** The conversation along a run *)

Section Conversation.

Variable World : Type.
Variable tool_manager : AIGenerator.ToolManager World.
Variable self : AIGenerator.t World.
Variable tools_arg : option (list ToolSchema).
Variable system_content : string.

Local Abbreviation rtrace :=
  (round_trace World tool_manager self tools_arg system_content).

Lemma dispatched_not_provider_call blocks evs rs req res :
  dispatched World tool_manager blocks evs rs ->
  ~ In (ProviderCall req res) evs.
Proof.
  intros Hd Hin.
  pose proof (dispatched_all_tool_execs _ _ _ _ _ Hd) as Hall.
  rewrite Forall_forall in Hall. specialize (Hall _ Hin). discriminate.
Qed.

(** Every inference call carries the same system string, and a conversation
    that extends the one the loop was entered with by turns made of response
    blocks and tool results. *)
Lemma round_trace_conversation k msgs tr out :
  rtrace k msgs tr out ->
  forall req res,
    In (ProviderCall req res) tr ->
    system req = system_content
    /\ exists turns,
         messages req = msgs ++ turns /\ Forall derived_turn turns.
Proof.
  induction 1 as [msgs res0 w w' Hp | k msgs res0 w w' Hp Hn
                 | k msgs r w w' evs rs tr out Hp Hs Hd Hr IH];
    intros req res Hin.
  - destruct Hin as [Heq | []]. inversion Heq; subst. cbn.
    split; [reflexivity |]. exists []. now rewrite app_nil_r.
  - destruct Hin as [Heq | []]. inversion Heq; subst.
    rewrite round_params_system, round_params_messages.
    split; [reflexivity |]. exists []. now rewrite app_nil_r.
  - destruct Hin as [Heq | Hin].
    + inversion Heq; subst.
      rewrite round_params_system, round_params_messages.
      split; [reflexivity |]. exists []. now rewrite app_nil_r.
    + apply in_app_or in Hin. destruct Hin as [Hin | Hin].
      * exfalso. eapply dispatched_not_provider_call; eassumption.
      * destruct (IH req res Hin) as (Hsys & turns & Hm & Hall).
        split; [exact Hsys |].
        exists (assistant_turn (content r) :: tool_result_turn rs :: turns).
        split.
        -- rewrite Hm. now rewrite <- !app_assoc.
        -- constructor; [left; eauto |].
           constructor; [right; eauto | exact Hall].
Qed.

(** A trace that starts with tool executions and holds an inference call
    holds it after those executions. *)
Lemma split_after_tool_execs blocks evs rs :
  dispatched World tool_manager blocks evs rs ->
  forall pre req res post tr,
    pre ++ ProviderCall req res :: post = evs ++ tr ->
    exists pre', pre = evs ++ pre' /\ tr = pre' ++ ProviderCall req res :: post.
Proof.
  induction 1 as [| text bs evs rs Hd IH
                  | id name input out w w' bs evs rs Hexec Hd IH];
    intros pre req res post tr Heq.
  - exists pre. auto.
  - eauto.
  - destruct pre as [| e pre]; cbn in Heq.
    + discriminate.
    + inversion Heq; subst e.
      destruct (IH _ _ _ _ _ H1) as (pre' & -> & ->).
      exists pre'. auto.
Qed.

(** A response that asks for tools while rounds are left is followed by the
    execution of its tool-use blocks, in order, and then by an inference call
    whose conversation is the previous one extended by the assistant turn and
    by one turn holding all the results. *)
Lemma round_trace_tool_round k msgs tr out :
  rtrace k msgs tr out ->
  forall pre req r post,
    tr = pre ++ ProviderCall req (Responded r) :: post ->
    stop_reason r = "tool_use" ->
    length (provider_calls pre) < k ->
    exists evs rs req' res' rest,
      post = evs ++ ProviderCall req' res' :: rest
      /\ dispatched World tool_manager (content r) evs rs
      /\ messages req'
         = (messages req ++ [assistant_turn (content r)])
             ++ [tool_result_turn rs].
Proof.
  induction 1 as [msgs res0 w w' Hp | k msgs res0 w w' Hp Hn
                 | k msgs r0 w w' evs rs tr out Hp Hs Hd Hr IH];
    intros pre req r post Heq Hstop Hlen.
  - lia.
  - destruct pre as [| e pre]; cbn in Heq.
    + inversion Heq; subst. exfalso. apply Hn. now exists r.
    + inversion Heq. now destruct pre.
  - destruct pre as [| e pre]; cbn in Heq.
    + inversion Heq; subst req r post.
      destruct (round_trace_head _ _ _ _ _ _ _ _ _ Hr)
        as (req' & res' & rest & -> & Hm & _).
      exists evs, rs, req', res', rest.
      rewrite round_params_messages. auto.
    + inversion Heq; subst e.
      destruct (split_after_tool_execs _ _ _ Hd _ _ _ _ _ (eq_sym H1))
        as (pre' & -> & ->).
      apply (IH pre' req r post eq_refl Hstop).
      rewrite (provider_calls_round _ _ _ _ _ _ _ _ Hd) in Hlen.
      cbn [length] in Hlen. lia.
Qed.

End Conversation.

(** ** Queries *)

Section Queries.

Variable World : Type.
Variable self : AIGenerator.t World.

Local Abbreviation prompt h := (AIGenerator.system_content_of h).

(** With a tool manager the query is the round loop on the seeded
    conversation. *)
Lemma generate_response_with_tools query history tools_arg tm w :
  AIGenerator.generate_response self query history tools_arg (Some tm) w
  = AIGenerator.tool_round_loop self AIGenerator.MAX_TOOL_ROUNDS tm tools_arg
      (prompt history) [user_turn query] w.
Proof. reflexivity. Qed.

Lemma generate_response_round_trace query history tools_arg tm w :
  round_trace World tm self tools_arg (prompt history)
    AIGenerator.MAX_TOOL_ROUNDS [user_turn query]
    (trace_of (AIGenerator.generate_response self query history tools_arg
                 (Some tm) w))
    (outcome_of (AIGenerator.generate_response self query history tools_arg
                   (Some tm) w)).
Proof. rewrite generate_response_with_tools. apply loop_round_trace. Qed.

(** Without a tool manager the query is one call without tools. *)
Lemma generate_response_fast_path query history tools_arg w :
  AIGenerator.generate_response self query history tools_arg None w
  = (answer_of
       (fst (AIGenerator.messages_create (AIGenerator.client self)
               (plain_request self query history) w)),
     snd (AIGenerator.messages_create (AIGenerator.client self)
            (plain_request self query history) w),
     [ProviderCall (plain_request self query history)
        (fst (AIGenerator.messages_create (AIGenerator.client self)
                (plain_request self query history) w))]).
Proof. apply create_then_text. Qed.


End Queries.

Arguments provider_contract {World} c.

(** ** Properties of a query *)

Section QueryFacts.

Variable World : Type.
Variable self : AIGenerator.t World.

(** The outcome of the loop is read from its last inference call. *)
Lemma round_trace_last tm tools_arg system_content k msgs tr out :
  round_trace World tm self tools_arg system_content k msgs tr out ->
  exists pre req res,
    tr = pre ++ [ProviderCall req res] /\ out = answer_of res.
Proof.
  induction 1 as [msgs res0 w w' Hp | k msgs res0 w w' Hp Hn
                 | k msgs r w w' evs rs tr out Hp Hs Hd Hr IH].
  - now exists [], (AIGenerator.plain_params self msgs system_content), res0.
  - now exists [],
      (AIGenerator.round_params self msgs system_content tools_arg), res0.
  - destruct IH as (pre & req & res & -> & ->).
    exists (ProviderCall
              (AIGenerator.round_params self msgs system_content tools_arg)
              (Responded r) :: evs ++ pre), req, res.
    split; [| reflexivity].
    cbn. now rewrite app_assoc.
Qed.


(** Every inference call of a query, with or without a tool manager, carries
    the system string built from the history and a conversation that starts
    with the question. *)
Lemma generate_response_conversation query history tools_arg tmo w req res :
  In (ProviderCall req res)
     (trace_of (AIGenerator.generate_response self query history tools_arg
                  tmo w)) ->
  system req = AIGenerator.system_content_of history
  /\ exists turns,
       messages req = user_turn query :: turns /\ Forall derived_turn turns.
Proof.
  destruct tmo as [tm |].
  - intros Hin.
    apply (round_trace_conversation _ _ _ _ _ _ _ _ _
             (generate_response_round_trace World self query history
                tools_arg tm w)) in Hin.
    exact Hin.
  - rewrite generate_response_fast_path. cbn [trace_of snd].
    intros [Heq | []]. inversion Heq; subst. cbn.
    split; [reflexivity |]. exists []. auto.
Qed.


End QueryFacts.

(** The eager provider keeps the contract. *)
Lemma eager_client_contract :
  provider_contract
    (AIGenerator.client (Scenarios.generator Scenarios.eager_client)).
Proof.
  intros req w. cbn.
  destruct (tools req) as [ts |] eqn:Ht.
  - exists Scenarios.eager_response, w. split; [reflexivity |].
    intros [Hs | Hn]; [now contradiction Hs | discriminate].
  - exists (Scenarios._text_response "Done"), w. split; [reflexivity |].
    intros _. now exists "Done", [].
Defined.

(** ** The bounded loop *)

(** C1 (amended).  A query processed with a tool manager issues at most
    [MAX_TOOL_ROUNDS + 1 = 3] inference calls, whatever the responses ask
    for and whatever the tools do, and the run always ends.  It ends with a
    final answer string, the text of the first block of the last response,
    when that block is a text block, and so whenever the provider keeps its
    contract; it ends with an exception when the last call raised, or when
    the last response has no content block or a leading tool-use block. *)
Theorem generate_response_bounded_calls
    (World : Type) (self : AIGenerator.t World) (query : string)
    (history : option string) (tools_arg : option (list ToolSchema))
    (tm : AIGenerator.ToolManager World) (w : World) :
  let run :=
    AIGenerator.generate_response self query history tools_arg (Some tm) w in
  length (provider_calls (trace_of run)) <= AIGenerator.MAX_TOOL_ROUNDS + 1
  /\ AIGenerator.MAX_TOOL_ROUNDS + 1 = 3
  /\ (exists pre req res,
        trace_of run = pre ++ [ProviderCall req res]
        /\ match res with
           | Responded r =>
               match content r with
               | TextBlock text :: _ => outcome_of run = Ret text
               | ToolUseBlock _ _ _ :: _ =>
                   outcome_of run = Raise AttributeError
               | [] => outcome_of run = Raise IndexError
               end
           | ProviderRaised msg => outcome_of run = Raise (ProviderError msg)
           end)
  /\ (provider_contract (AIGenerator.client self) ->
      exists answer, outcome_of run = Ret answer).
Proof.
  intros run.
  pose proof (generate_response_round_trace World self query history
                tools_arg tm w) as Hr.
  fold run in Hr.
  split; [| split; [reflexivity | split]].
  - apply (round_trace_calls_bound _ _ _ _ _ _ _ _ _ Hr).
  - destruct (round_trace_last _ _ _ _ _ _ _ _ _ Hr)
      as (pre & req & res & Htr & Hout).
    exists pre, req, res. split; [exact Htr |].
    rewrite Hout. destruct res as [r | msg]; [| reflexivity].
    cbn. unfold AIGenerator.content0_text.
    now destruct (content r) as [| [text | id name input] rest].
  - intros Hc. eapply round_trace_answers; eassumption.
Qed.

Lemma generate_response_bounded_calls_witness :
  length (provider_calls (trace_of Scenarios.eager_run)) <= 3
  /\ exists answer, outcome_of Scenarios.eager_run = Ret answer.
Proof.
  destruct (generate_response_bounded_calls nat
              (Scenarios.generator Scenarios.eager_client) "test" None
              Scenarios.search_tools Scenarios.one_tool_manager 0)
    as (Hbound & _ & _ & Hanswer).
  split; [exact Hbound | exact (Hanswer eager_client_contract)].
Defined.

(** C1, as first stated, fails: when the provider asks for a tool on every
    call with responses that hold a tool-use block only, the query makes its
    three calls and then raises on reading the text of the synthesis
    response; it returns no answer string. *)
Lemma generate_response_no_answer_counterexample :
  length (provider_calls (trace_of MoreScenarios.insistent_run)) = 3
  /\ outcome_of MoreScenarios.insistent_run = Raise AttributeError
  /\ ~ (exists answer, outcome_of MoreScenarios.insistent_run = Ret answer).
Proof.
  split; [reflexivity |]. split; [reflexivity |].
  intros (answer & H). discriminate H.
Qed.

(** C2.  Among the inference calls of a query, only the first
    [MAX_TOOL_ROUNDS = 2] can carry a tool schema or a [tool_choice], and
    they carry the tools given whenever these are a non-empty list.  The call
    made once the rounds are used up carries neither, and the text of its
    response, the text of its first block, is the final answer; when the
    response has no such text the query raises instead of answering. *)
Theorem tools_offered_only_in_rounds
    (World : Type) (self : AIGenerator.t World) (query : string)
    (history : option string) (tools_arg : option (list ToolSchema))
    (tm : AIGenerator.ToolManager World) (w : World)
    (i : nat) (req : Request) (res : ProviderResult) :
  let run :=
    AIGenerator.generate_response self query history tools_arg (Some tm) w in
  nth_error (provider_calls (trace_of run)) i = Some (ProviderCall req res) ->
  AIGenerator.MAX_TOOL_ROUNDS = 2
  /\ (tools req <> None \/ tool_choice req <> None ->
      i < AIGenerator.MAX_TOOL_ROUNDS)
  /\ (i < AIGenerator.MAX_TOOL_ROUNDS ->
      tools req = (if Py.truthy_list tools_arg then tools_arg else None)
      /\ tool_choice req
         = (if Py.truthy_list tools_arg
            then Some {| choice_type := "auto" |} else None))
  /\ (AIGenerator.MAX_TOOL_ROUNDS <= i ->
      i = AIGenerator.MAX_TOOL_ROUNDS
      /\ tools req = None /\ tool_choice req = None
      /\ (forall r text rest,
            res = Responded r -> content r = TextBlock text :: rest ->
            outcome_of run = Ret text)
      /\ (forall r id name input rest,
            res = Responded r ->
            content r = ToolUseBlock id name input :: rest ->
            outcome_of run = Raise AttributeError)
      /\ (forall r,
            res = Responded r -> content r = [] ->
            outcome_of run = Raise IndexError)
      /\ (forall msg,
            res = ProviderRaised msg ->
            outcome_of run = Raise (ProviderError msg))).
Proof.
  intros run Hnth.
  pose proof (generate_response_round_trace World self query history
                tools_arg tm w) as Hr.
  fold run in Hr.
  destruct (round_trace_tools_only_in_rounds _ _ _ _ _ _ _ _ _ Hr
              i req res Hnth) as [Hlt Hge].
  split; [reflexivity | split; [| split; [exact Hlt |]]].
  - intros Hcarries.
    destruct (Nat.lt_ge_cases i AIGenerator.MAX_TOOL_ROUNDS) as [Hi | Hi];
      [exact Hi |].
    destruct (Hge Hi) as (_ & Ht & Hc & _).
    destruct Hcarries as [H | H]; contradiction.
  - intros Hi. destruct (Hge Hi) as (Heq & Ht & Hc & Hout).
    split; [exact Heq |]. split; [exact Ht |]. split; [exact Hc |].
    rewrite Hout. repeat split.
    + intros r text rest -> Hcont. cbn.
      unfold AIGenerator.content0_text. now rewrite Hcont.
    + intros r id name input rest -> Hcont. cbn.
      unfold AIGenerator.content0_text. now rewrite Hcont.
    + intros r -> Hcont. cbn.
      unfold AIGenerator.content0_text. now rewrite Hcont.
    + intros msg ->. reflexivity.
Qed.

Lemma tools_offered_only_in_rounds_witness :
  exists req,
    nth_error (provider_calls (trace_of Scenarios.eager_run)) 2
      = Some (ProviderCall req (Responded (Scenarios._text_response "Done")))
    /\ tools req = None /\ tool_choice req = None
    /\ outcome_of Scenarios.eager_run = Ret "Done".
Proof.
  assert (H : exists req,
             nth_error (provider_calls (trace_of Scenarios.eager_run)) 2
             = Some (ProviderCall req
                       (Responded (Scenarios._text_response "Done")))).
  { vm_compute. eexists. reflexivity. }
  destruct H as (req & H).
  exists req. split; [exact H |].
  destruct (tools_offered_only_in_rounds nat
              (Scenarios.generator Scenarios.eager_client) "test" None
              Scenarios.search_tools Scenarios.one_tool_manager 0 2 req _ H)
    as (_ & _ & _ & Hsynth).
  destruct (Hsynth (le_n 2)) as (_ & Ht & Hc & Htext & _).
  split; [exact Ht |]. split; [exact Hc |].
  exact (Htext (Scenarios._text_response "Done") "Done" [] eq_refl eq_refl).
Defined.



(** ** Tool rounds and the conversation *)

(** C5.  When a response asks for tools while rounds are left, the tool-use
    blocks of the turn are executed in the order of the blocks, and the next
    inference call is made on the conversation extended by the assistant
    turn holding the blocks and then by exactly one turn holding all the
    results, one per tool-use block, each keyed by the id of its block and
    holding the text of its execution (the result, or the converted
    error). *)
Theorem tool_round_appends_results
    (World : Type) (self : AIGenerator.t World) (query : string)
    (history : option string) (tools_arg : option (list ToolSchema))
    (tm : AIGenerator.ToolManager World) (w : World)
    (pre : list Event) (req : Request) (r : Response) (post : list Event) :
  trace_of (AIGenerator.generate_response self query history tools_arg
              (Some tm) w)
  = pre ++ ProviderCall req (Responded r) :: post ->
  stop_reason r = "tool_use" ->
  length (provider_calls pre) < AIGenerator.MAX_TOOL_ROUNDS ->
  exists evs rs req' res' rest,
    post = evs ++ ProviderCall req' res' :: rest
    /\ dispatched World tm (content r) evs rs
    /\ map call_of_event evs = map call_of_block (tool_use_blocks (content r))
    /\ map (fun x => Some (tool_use_id x)) rs
       = map id_of_block (tool_use_blocks (content r))
    /\ map (fun x => Some (tr_content x)) rs = map text_of_event evs
    /\ messages req'
       = messages req
           ++ [assistant_turn (content r); tool_result_turn rs].
Proof.
  intros Htr Hstop Hlen.
  pose proof (generate_response_round_trace World self query history
                tools_arg tm w) as Hr.
  destruct (round_trace_tool_round _ _ _ _ _ _ _ _ _ Hr pre req r post
              Htr Hstop Hlen)
    as (evs & rs & req' & res' & rest & Hpost & Hd & Hm).
  exists evs, rs, req', res', rest.
  split; [exact Hpost |]. split; [exact Hd |].
  split; [eapply dispatched_order; exact Hd |].
  split; [eapply dispatched_ids; exact Hd |].
  split; [eapply dispatched_contents; exact Hd |].
  rewrite Hm. now rewrite <- app_assoc.
Qed.

Lemma tool_round_appends_results_witness :
  exists evs rs req' res' rest,
    tl (trace_of Scenarios.eager_run) = evs ++ ProviderCall req' res' :: rest
    /\ map call_of_event evs
       = [ Some ("search_course_content", [("query", JStr "first")]);
           Some ("get_course_outline", [("course_name", JStr "MCP")]) ]
    /\ map (fun x => Some (tool_use_id x)) rs = [Some "tu_001"; Some "tu_002"]
    /\ messages req'
       = [ user_turn "test";
           assistant_turn (content Scenarios.eager_response);
           tool_result_turn rs ].
Proof.
  destruct (tool_round_appends_results nat
              (Scenarios.generator Scenarios.eager_client) "test" None
              Scenarios.search_tools Scenarios.one_tool_manager 0
              []
              (round_request (Scenarios.generator Scenarios.eager_client)
                 "test" None Scenarios.search_tools)
              Scenarios.eager_response
              (tl (trace_of Scenarios.eager_run)))
    as (evs & rs & req' & res' & rest & Hpost & _ & Hord & Hids & _ & Hm).
  - vm_compute. reflexivity.
  - reflexivity.
  - unfold AIGenerator.MAX_TOOL_ROUNDS. cbn. lia.
  - exists evs, rs, req', res', rest. auto.
Defined.

(** C6.  When the first response does not ask for tools, its text (the text
    of its first block) is the outcome as it is; one inference call was made
    and no tool was executed. *)
Theorem direct_answer_single_call
    (World : Type) (self : AIGenerator.t World) (query : string)
    (history : option string) (tools_arg : option (list ToolSchema))
    (tmo : option (AIGenerator.ToolManager World)) (w w' : World)
    (r : Response) :
  AIGenerator.messages_create (AIGenerator.client self)
    (first_request self query history tools_arg tmo) w = (Responded r, w') ->
  stop_reason r <> "tool_use" ->
  let run :=
    AIGenerator.generate_response self query history tools_arg tmo w in
  run = (AIGenerator.content0_text r, w',
         [ProviderCall (first_request self query history tools_arg tmo)
            (Responded r)])
  /\ (forall text rest,
        content r = TextBlock text :: rest -> outcome_of run = Ret text)
  /\ length (provider_calls (trace_of run)) = 1
  /\ tool_execs (trace_of run) = [].
Proof.
  intros Hp Hstop run.
  assert (Hrun : run = (AIGenerator.content0_text r, w',
                        [ProviderCall
                           (first_request self query history tools_arg tmo)
                           (Responded r)])).
  { subst run. destruct tmo as [tm |].
    - rewrite generate_response_with_tools.
      unfold AIGenerator.MAX_TOOL_ROUNDS.
      cbn [first_request] in Hp. unfold round_request in Hp.
      rewrite (loop_answer World self tm tools_arg _ 1 _ _ _ _ Hp).
      + reflexivity.
      + intros (r' & Heq & Hs). inversion Heq; subst. contradiction.
    - rewrite generate_response_fast_path.
      cbn [first_request] in Hp. now rewrite Hp. }
  rewrite Hrun. cbn.
  split; [reflexivity |]. split; [| split; reflexivity].
  intros text rest Hc. unfold AIGenerator.content0_text. now rewrite Hc.
Qed.

Lemma direct_answer_single_call_witness :
  AIGenerator.generate_response
    (Scenarios.generator Scenarios.scripted_client) "What is Python?" None
    Scenarios.search_tools (Some (Scenarios.returning_tools "result"))
    [Responded (Scenarios._text_response "Hello world")]
  = (Ret "Hello world", [],
     [ProviderCall
        (first_request (Scenarios.generator Scenarios.scripted_client)
           "What is Python?" None Scenarios.search_tools
           (Some (Scenarios.returning_tools "result")))
        (Responded (Scenarios._text_response "Hello world"))]).
Proof.
  refine (proj1 (direct_answer_single_call (list ProviderResult)
                   (Scenarios.generator Scenarios.scripted_client)
                   "What is Python?" None Scenarios.search_tools
                   (Some (Scenarios.returning_tools "result"))
                   [Responded (Scenarios._text_response "Hello world")] []
                   (Scenarios._text_response "Hello world") eq_refl _)).
  cbn. discriminate.
Defined.



(** C9.  Without a tool manager a query makes exactly one inference call,
    and that call carries neither a tool schema nor a [tool_choice], whatever
    tools were given; its text is the outcome. *)
Theorem no_tool_manager_single_plain_call
    (World : Type) (self : AIGenerator.t World) (query : string)
    (history : option string) (tools_arg : option (list ToolSchema))
    (w : World) :
  let run :=
    AIGenerator.generate_response self query history tools_arg None w in
  exists res,
    trace_of run = [ProviderCall (plain_request self query history) res]
    /\ length (provider_calls (trace_of run)) = 1
    /\ tools (plain_request self query history) = None
    /\ tool_choice (plain_request self query history) = None
    /\ outcome_of run = answer_of res.
Proof.
  intros run. subst run. rewrite generate_response_fast_path.
  eexists. cbn. repeat split; reflexivity.
Qed.

(** C10.  The empty string as conversation history behaves as no history:
    the run is the same, and the system string of every inference call is
    the static system prompt. *)
Theorem empty_history_is_no_history
    (World : Type) (self : AIGenerator.t World) (query : string)
    (tools_arg : option (list ToolSchema))
    (tmo : option (AIGenerator.ToolManager World)) (w : World) :
  AIGenerator.generate_response self query (Some EmptyString) tools_arg tmo w
  = AIGenerator.generate_response self query None tools_arg tmo w
  /\ (forall req res,
        In (ProviderCall req res)
           (trace_of (AIGenerator.generate_response self query
                        (Some EmptyString) tools_arg tmo w)) ->
        system req = AIGenerator.SYSTEM_PROMPT).
Proof.
  split; [reflexivity |].
  intros req res Hin.
  now destruct (generate_response_conversation World self query
                  (Some EmptyString) tools_arg tmo w req res Hin).
Qed.

Lemma empty_history_is_no_history_witness :
  Scenarios.plain_run (Some EmptyString) = Scenarios.plain_run None
  /\ exists req res,
       nth_error (trace_of (Scenarios.plain_run (Some EmptyString))) 0
         = Some (ProviderCall req res)
       /\ system req = AIGenerator.SYSTEM_PROMPT.
Proof.
  destruct (empty_history_is_no_history (list ProviderResult)
              (Scenarios.generator Scenarios.scripted_client)
              "What is Python?" Scenarios.search_tools None
              [Responded (Scenarios._text_response "Hello world")])
    as [Hsame Hsys].
  split; [exact Hsame |].
  assert (H : exists req res,
             nth_error (trace_of (Scenarios.plain_run (Some EmptyString))) 0
             = Some (ProviderCall req res)).
  { vm_compute. eexists. eexists. reflexivity. }
  destruct H as (req & res & H).
  exists req, res. split; [exact H |].
  exact (Hsys req res (nth_error_In _ _ H)).
Defined.

(** ** The similarity store and the retrieval tool *)

Lemma contains_prefix needle haystack :
  Py.startswith haystack needle = true -> Py.contains needle haystack = true.
Proof. intros H. destruct haystack; cbn [Py.contains]; now rewrite H. Qed.

(** C4.  A search whose result count is zero does not raise: the rejection
    of the count by the index is caught, and the result set carries only an
    error, which starts with ["Search error: "] and so contains
    ["Search error"]. *)
Theorem search_with_zero_results_returns_error
    (Distance : Type) (self : VectorStore.t Distance) (query_text : string)
    (course_name : option string) (lesson_number limit : option nat) :
  match limit with Some n => n | None => VectorStore.max_results self end = 0 ->
  (forall q f, exists msg,
      VectorStore.query (VectorStore.course_content self) q 0 f
      = VectorStore.QueryRaised msg) ->
  exists e,
    VectorStore.search self query_text course_name lesson_number limit
    = VectorStore.empty e
    /\ VectorStore.error
         (VectorStore.search self query_text course_name lesson_number limit)
       = Some e
    /\ Py.startswith e "Search error: " = true
    /\ Py.contains "Search error" e = true.
Proof.
  intros Hzero Hrejects.
  destruct (Hrejects query_text
              (VectorStore._build_filter course_name lesson_number))
    as (msg & Hq).
  exists ("Search error: " ++ msg)%string.
  unfold VectorStore.search. rewrite Hzero, Hq.
  split; [reflexivity |]. split; [reflexivity |].
  split; [reflexivity | apply contains_prefix; reflexivity].
Qed.

Lemma search_with_zero_results_returns_error_witness :
  exists e,
    VectorStore.error
      (VectorStore.search Scenarios.zero_limit_store "test query" None None
         None) = Some e
    /\ Py.contains "Search error" e = true.
Proof.
  destruct (search_with_zero_results_returns_error nat
              Scenarios.zero_limit_store "test query" None None None eq_refl)
    as (e & _ & Herr & _ & Hcontains).
  - intros q f. eexists. reflexivity.
  - exists e. split; [exact Herr | exact Hcontains].
Defined.

Lemma map_snd_combine {A B C : Type} (f : B -> C) (xs : list A) :
  forall ys : list B,
    length ys = length xs ->
    map (fun p => f (snd p)) (combine xs ys) = map f ys.
Proof.
  induction xs as [| x xs IH]; intros [| y ys] Hlen; cbn in *;
    try discriminate; try reflexivity.
  f_equal. apply IH. congruence.
Qed.

(** C7.  After any [execute] whose search yields [k] fragments (no error,
    the lists aligned; [k] may be zero), the provenance list holds exactly
    [k] entries, one [Source] per fragment in fragment order, whatever it
    held before: the list is replaced, never merged.  The entry of a
    fragment that has a lesson number is labeled
    [<course title> - Lesson <n>] and has the lesson link as url.  When the
    search carries an error or no fragment, the provenance list is empty
    after the call, whatever it held before. *)
Theorem execute_replaces_sources
    (Distance : Type) (self : CourseSearchTool.t Distance)
    (query_text : string) (course_name : option string)
    (lesson_number : option nat) :
  let results :=
    CourseSearchTool.store_search (CourseSearchTool.store self) query_text
      course_name lesson_number in
  let after :=
    snd (CourseSearchTool.execute self query_text course_name lesson_number) in
  (VectorStore.error results = None ->
   length (VectorStore.metadata results)
   = length (VectorStore.documents results) ->
   CourseSearchTool.last_sources after
   = map (CourseSearchTool.source_of (CourseSearchTool.store self))
       (VectorStore.metadata results)
   /\ length (CourseSearchTool.last_sources after)
      = length (VectorStore.documents results)
   /\ (forall i m n,
         nth_error (VectorStore.metadata results) i = Some m ->
         VectorStore.lesson_number m = Some n ->
         nth_error (CourseSearchTool.last_sources after) i
         = Some {| CourseSearchTool.label :=
                     (VectorStore.course_title m ++ " - Lesson "
                        ++ Py.str_of_nat n)%string;
                   CourseSearchTool.url :=
                     CourseSearchTool.get_lesson_link
                       (CourseSearchTool.store self)
                       (VectorStore.course_title m) n |}))
  /\ (VectorStore.error results <> None
      \/ VectorStore.documents results = [] ->
      CourseSearchTool.last_sources after = []).
Proof.
  intros results after. subst after. unfold CourseSearchTool.execute.
  fold results. split.
  - intros Herr Hlen. rewrite Herr.
    assert (Hsources :
      CourseSearchTool.last_sources
        (snd (if VectorStore.is_empty results
              then (("No relevant content found"
                       ++ CourseSearchTool.filter_info course_name
                            lesson_number ++ ".")%string,
                    CourseSearchTool.with_sources self [])
              else CourseSearchTool._format_results self results))
      = map (CourseSearchTool.source_of (CourseSearchTool.store self))
          (VectorStore.metadata results)).
    { unfold VectorStore.is_empty.
      destruct (VectorStore.documents results) as [| d ds] eqn:Hd.
      - cbn in Hlen |- *.
        now destruct (VectorStore.metadata results).
      - unfold CourseSearchTool._format_results. cbn [snd].
        cbn [CourseSearchTool.last_sources]. rewrite Hd.
        apply (map_snd_combine
                 (CourseSearchTool.source_of (CourseSearchTool.store self))
                 (d :: ds) _ Hlen). }
    rewrite Hsources. split; [reflexivity |]. split.
    + now rewrite length_map.
    + intros i m n Hnth Hlesson.
      rewrite nth_error_map, Hnth. cbn.
      unfold CourseSearchTool.source_of, CourseSearchTool.label_of,
        CourseSearchTool.link_of.
      now rewrite Hlesson.
  - intros Hnone.
    destruct (VectorStore.error results) as [e |] eqn:Herr; [reflexivity |].
    destruct Hnone as [Hne | Hempty]; [now contradiction Hne |].
    unfold VectorStore.is_empty. now rewrite Hempty.
Qed.

Lemma execute_replaces_sources_witness :
  CourseSearchTool.last_sources
    (snd (CourseSearchTool.execute Scenarios.tool_after_earlier_call
            "test query" None None))
  = [ {| CourseSearchTool.label := "Course A - Lesson 3";
         CourseSearchTool.url := Some "http://example.com/lesson3" |} ]
  /\ CourseSearchTool.last_sources
       (snd (CourseSearchTool.execute
               MoreScenarios.stale_tool_with_failing_search
               "test query" None None))
     = []
  /\ CourseSearchTool.last_sources
       (snd (CourseSearchTool.execute
               MoreScenarios.stale_tool_without_matches
               "test query" None None))
     = [].
Proof.
  split; [| split].
  - destruct (execute_replaces_sources nat Scenarios.tool_after_earlier_call
                "test query" None None) as [Hfound _].
    destruct Hfound as (Hsources & _ & _).
    + reflexivity.
    + reflexivity.
    + exact Hsources.
  - destruct (execute_replaces_sources nat
                MoreScenarios.stale_tool_with_failing_search
                "test query" None None) as [_ Hnone].
    apply Hnone. left. cbn. discriminate.
  - destruct (execute_replaces_sources nat
                MoreScenarios.stale_tool_without_matches
                "test query" None None) as [_ Hnone].
    apply Hnone. right. reflexivity.
Defined.

(** ** The scenarios of the test suite *)

(** Two tool rounds: three inference calls, the first two with tools and
    the synthesis without, two tool executions, and the text of the
    synthesis as the answer. *)
Example two_rounds_then_synthesis :
  outcome_of Scenarios.two_round_run = Ret "Synthesized answer"
  /\ map Scenarios.offers_tools (provider_calls (trace_of Scenarios.two_round_run))
     = [true; true; false]
  /\ map call_of_event (tool_execs (trace_of Scenarios.two_round_run))
     = [ Some ("search_course_content", [("query", JStr "first")]);
         Some ("search_course_content", [("query", JStr "second")]) ]
  /\ world_of Scenarios.two_round_run = [].
Proof. vm_compute. repeat split; reflexivity. Qed.

(** A tool that raises: the answer is still returned after two calls, and
    the second call is sent the converted error under the id of the call. *)
Example tool_error_is_passed_on :
  outcome_of Scenarios.tool_error_run = Ret "Recovered response"
  /\ map Scenarios.results_sent
       (provider_calls (trace_of Scenarios.tool_error_run))
     = [ [];
         [ {| tr_type := "tool_result";
              tool_use_id := "err_tool";
              tr_content := "Tool error: search failed" |} ] ].
Proof. vm_compute. split; reflexivity. Qed.

(** A tool manager without a tool list: the rounds still run, and no call
    carries tools. *)
Example rounds_without_schema :
  outcome_of Scenarios.no_schema_run = Ret "Final answer"
  /\ map Scenarios.offers_tools
       (provider_calls (trace_of Scenarios.no_schema_run))
     = [false; false]
  /\ length (tool_execs (trace_of Scenarios.no_schema_run)) = 1.
Proof. vm_compute. repeat split; reflexivity. Qed.

(** A provider that fails is not caught: its exception leaves the query. *)
Example provider_failure_propagates :
  AIGenerator.generate_response
    (Scenarios.generator Scenarios.scripted_client) "test" None
    Scenarios.search_tools (Some (Scenarios.returning_tools "result")) []
  = (Raise (ProviderError "StopIteration"), [],
     [ProviderCall
        (round_request (Scenarios.generator Scenarios.scripted_client)
           "test" None Scenarios.search_tools)
        (ProviderRaised "StopIteration")]).
Proof. reflexivity. Qed.

(** The no-match message of the retrieval tool names the active filter and
    leaves the provenance as it was. *)
Example execute_without_matches :
  CourseSearchTool.execute
    (CourseSearchTool.init
       (Scenarios.mock_store
          (VectorStore.mkSearchResults (Distance := nat) [] [] [] None)
          "http://example.com/lesson"))
    "test" (Some "My Course") None
  = ("No relevant content found in course 'My Course'.",
     CourseSearchTool.init
       (Scenarios.mock_store
          (VectorStore.mkSearchResults (Distance := nat) [] [] [] None)
          "http://example.com/lesson")).
Proof. reflexivity. Qed.

(** With a count of one the mock index answers, and the search carries no
    error. *)
Example search_with_positive_limit :
  VectorStore.search Scenarios.zero_limit_store "python" None None (Some 1)
  = VectorStore.mkSearchResults
      ["Python is a versatile programming language."]
      [VectorStore.mkMetadata "Python Fundamentals" (Some 1)]
      [1] None.
Proof. reflexivity. Qed.

(** ** How a run ends, and how many calls it makes *)

Section RunShape.

Variable World : Type.
Variable self : AIGenerator.t World.

Lemma singleton_split {A : Type} (x y : A) pre post :
  [x] = pre ++ y :: post -> pre = [] /\ post = [] /\ x = y.
Proof.
  destruct pre as [| e pre]; cbn; intros H; inversion H; subst; auto.
  now destruct pre.
Qed.

(** A call whose result does not ask for tools is the last event of the
    loop, and the outcome is read from it. *)
Lemma round_trace_stops tm tools_arg system_content k msgs tr out :
  round_trace World tm self tools_arg system_content k msgs tr out ->
  forall pre req res post,
    tr = pre ++ ProviderCall req res :: post ->
    ~ requests_tools res ->
    post = [] /\ out = answer_of res.
Proof.
  induction 1 as [msgs res0 w w' Hp | k msgs res0 w w' Hp Hn
                 | k msgs r w w' evs rs tr out Hp Hs Hd Hr IH];
    intros pre req res post Heq Hnot.
  - apply singleton_split in Heq. destruct Heq as (_ & -> & Heq).
    inversion Heq; subst. auto.
  - apply singleton_split in Heq. destruct Heq as (_ & -> & Heq).
    inversion Heq; subst. auto.
  - destruct pre as [| e pre]; cbn in Heq.
    + inversion Heq; subst. exfalso. apply Hnot. now exists r.
    + inversion Heq; subst e.
      destruct (split_after_tool_execs _ _ _ _ _ Hd _ _ _ _ _ (eq_sym H1))
        as (pre' & -> & ->).
      eapply IH; eauto.
Qed.

Lemma generate_response_stops query history tools_arg tmo w
    pre req res post :
  trace_of (AIGenerator.generate_response self query history tools_arg tmo w)
  = pre ++ ProviderCall req res :: post ->
  ~ requests_tools res ->
  post = []
  /\ outcome_of (AIGenerator.generate_response self query history tools_arg
                   tmo w) = answer_of res.
Proof.
  destruct tmo as [tm |].
  - intros Heq Hnot.
    eapply round_trace_stops; [| exact Heq | exact Hnot].
    apply generate_response_round_trace.
  - rewrite generate_response_fast_path. cbn [trace_of outcome_of fst snd].
    intros Heq _. apply singleton_split in Heq.
    destruct Heq as (_ & -> & Heq). inversion Heq; subst. auto.
Qed.

Lemma tool_execs_app tr1 tr2 :
  tool_execs (tr1 ++ tr2) = tool_execs tr1 ++ tool_execs tr2.
Proof. apply filter_app. Qed.

Lemma dispatched_tool_execs tm blocks evs rs :
  dispatched World tm blocks evs rs -> tool_execs evs = evs.
Proof. induction 1; cbn; auto. unfold tool_execs in *. congruence. Qed.

Lemma asks_tools_false res req :
  ~ requests_tools res -> asks_tools (ProviderCall req res) = false.
Proof.
  intros Hn. destruct res as [r | m]; [| reflexivity]. cbn.
  destruct (String.eqb (stop_reason r) "tool_use") eqn:E; [| reflexivity].
  exfalso. apply Hn. exists r. split; [reflexivity |].
  now apply String.eqb_eq.
Qed.

Lemma blocks_asked_zero res req :
  ~ requests_tools res -> blocks_asked (ProviderCall req res) = 0.
Proof.
  intros Hn. pose proof (asks_tools_false res req Hn) as H.
  destruct res as [r | m]; [| reflexivity]. cbn in *. now rewrite H.
Qed.

(** The loop makes one call more than the responses that asked for tools
    while rounds were left, and executes the tool-use blocks of exactly those
    responses. *)
Lemma round_trace_counts tm tools_arg system_content k msgs tr out :
  round_trace World tm self tools_arg system_content k msgs tr out ->
  length (provider_calls tr)
  = S (length (filter asks_tools (firstn k (provider_calls tr))))
  /\ length (tool_execs tr)
     = list_sum (map blocks_asked (firstn k (provider_calls tr))).
Proof.
  induction 1 as [msgs res0 w w' Hp | k msgs res0 w w' Hp Hn
                 | k msgs r w w' evs rs tr out Hp Hs Hd Hr IH].
  - split; reflexivity.
  - cbn [provider_calls tool_execs filter is_provider_call is_tool_exec
           firstn map list_sum length].
    rewrite firstn_nil. cbn [filter map list_sum].
    rewrite (asks_tools_false _ _ Hn), (blocks_asked_zero _ _ Hn).
    split; reflexivity.
  - destruct IH as [IHc IHe].
    rewrite (provider_calls_round _ _ _ _ _ _ _ _ Hd).
    cbn [firstn filter map list_sum length].
    assert (Ha : asks_tools
                   (ProviderCall
                      (AIGenerator.round_params self msgs system_content
                         tools_arg) (Responded r)) = true).
    { cbn. now apply String.eqb_eq. }
    rewrite Ha. cbn [length]. split; [now rewrite IHc |].
    change (tool_execs (ProviderCall
                          (AIGenerator.round_params self msgs system_content
                             tools_arg) (Responded r) :: evs ++ tr))
      with (tool_execs (evs ++ tr)).
    rewrite tool_execs_app, (dispatched_tool_execs _ _ _ _ Hd), length_app.
    rewrite IHe.
    destruct (dispatched_lengths _ _ _ _ _ Hd) as [He _]. rewrite He.
    cbn [blocks_asked]. apply String.eqb_eq in Hs. now rewrite Hs.
Qed.

End RunShape.

(** X1.  A provider call that raises is the last event of the query: no
    further call is made, no tool is executed afterwards, and the query
    raises that exception. *)
Theorem provider_failure_ends_query
    (World : Type) (self : AIGenerator.t World) (query : string)
    (history : option string) (tools_arg : option (list ToolSchema))
    (tmo : option (AIGenerator.ToolManager World)) (w : World)
    (pre post : list Event) (req : Request) (msg : string) :
  trace_of (AIGenerator.generate_response self query history tools_arg tmo w)
  = pre ++ ProviderCall req (ProviderRaised msg) :: post ->
  post = []
  /\ outcome_of (AIGenerator.generate_response self query history tools_arg
                   tmo w) = Raise (ProviderError msg).
Proof.
  intros Heq.
  apply (generate_response_stops World self query history tools_arg tmo w
           pre req (ProviderRaised msg) post Heq).
  intros (r & Hr & _). discriminate.
Qed.

Lemma provider_failure_ends_query_witness :
  exists pre req,
    trace_of MoreScenarios.failing_run
    = pre ++ [ProviderCall req (ProviderRaised "StopIteration")]
    /\ length pre = 2
    /\ outcome_of MoreScenarios.failing_run
       = Raise (ProviderError "StopIteration").
Proof.
  assert (H : exists pre req,
             trace_of MoreScenarios.failing_run
             = pre ++ ProviderCall req (ProviderRaised "StopIteration") :: []
             /\ length pre = 2).
  { vm_compute. eexists [_; _]. eexists. split; reflexivity. }
  destruct H as (pre & req & H & Hlen).
  exists pre, req. split; [exact H |]. split; [exact Hlen |].
  exact (proj2 (provider_failure_ends_query (list ProviderResult)
                  (Scenarios.generator Scenarios.scripted_client) "test" None
                  Scenarios.search_tools
                  (Some (Scenarios.returning_tools "result")) _
                  pre [] req "StopIteration" H)).
Defined.

(** X2.  In any round, a response that does not stop for tool use ends the
    query: nothing is called or executed after it, and the outcome is the
    text of its first block. *)
Theorem direct_answer_ends_query
    (World : Type) (self : AIGenerator.t World) (query : string)
    (history : option string) (tools_arg : option (list ToolSchema))
    (tmo : option (AIGenerator.ToolManager World)) (w : World)
    (pre post : list Event) (req : Request) (r : Response) :
  trace_of (AIGenerator.generate_response self query history tools_arg tmo w)
  = pre ++ ProviderCall req (Responded r) :: post ->
  stop_reason r <> "tool_use" ->
  post = []
  /\ outcome_of (AIGenerator.generate_response self query history tools_arg
                   tmo w) = AIGenerator.content0_text r.
Proof.
  intros Heq Hstop.
  apply (generate_response_stops World self query history tools_arg tmo w
           pre req (Responded r) post Heq).
  intros (r' & Hr & Hs). inversion Hr; subst. contradiction.
Qed.

Lemma direct_answer_ends_query_witness :
  exists pre req,
    trace_of Scenarios.tool_error_run
    = pre ++ [ProviderCall req
                (Responded (Scenarios._text_response "Recovered response"))]
    /\ length pre = 2
    /\ outcome_of Scenarios.tool_error_run = Ret "Recovered response".
Proof.
  assert (H : exists pre req,
             trace_of Scenarios.tool_error_run
             = pre ++ ProviderCall req
                        (Responded
                           (Scenarios._text_response "Recovered response"))
                      :: []
             /\ length pre = 2).
  { vm_compute. eexists [_; _]. eexists. split; reflexivity. }
  destruct H as (pre & req & H & Hlen).
  exists pre, req. split; [exact H |]. split; [exact Hlen |].
  refine (proj2 (direct_answer_ends_query (list ProviderResult)
                   (Scenarios.generator Scenarios.scripted_client) "test" None
                   Scenarios.search_tools
                   (Some (Scenarios.raising_tools "search failed")) _
                   pre [] req _ H _)).
  cbn. discriminate.
Defined.

(** X3.  A query with a tool manager makes exactly one inference call more
    than the number of responses, among its first [MAX_TOOL_ROUNDS] calls,
    that stopped for tool use. *)
Theorem calls_are_rounds_plus_one
    (World : Type) (self : AIGenerator.t World) (query : string)
    (history : option string) (tools_arg : option (list ToolSchema))
    (tm : AIGenerator.ToolManager World) (w : World) :
  let calls :=
    provider_calls
      (trace_of (AIGenerator.generate_response self query history tools_arg
                   (Some tm) w)) in
  length calls
  = S (length (filter asks_tools (firstn AIGenerator.MAX_TOOL_ROUNDS calls))).
Proof.
  intros calls. subst calls.
  apply (round_trace_counts World self tm tools_arg _ _ _ _ _
           (generate_response_round_trace World self query history tools_arg
              tm w)).
Qed.

Lemma round_trace_executions
    (World : Type) (self : AIGenerator.t World) tm tools_arg system_content
    k msgs tr out :
  round_trace World tm self tools_arg system_content k msgs tr out ->
  map call_of_event (tool_execs tr)
  = flat_map calls_asked (firstn k (provider_calls tr)).
Proof.
  induction 1 as [msgs res0 w w' Hp | k msgs res0 w w' Hp Hn
                 | k msgs r w w' evs rs tr out Hp Hs Hd Hr IH].
  - reflexivity.
  - cbn [provider_calls tool_execs filter is_provider_call is_tool_exec
           firstn map flat_map].
    rewrite firstn_nil. cbn [flat_map]. rewrite app_nil_r.
    pose proof (asks_tools_false _
                  (AIGenerator.round_params self msgs system_content tools_arg)
                  Hn) as Ha.
    destruct res0 as [r | m]; [| reflexivity]. cbn in *. now rewrite Ha.
  - rewrite (provider_calls_round _ _ _ _ _ _ _ _ Hd).
    cbn [firstn flat_map].
    change (tool_execs (ProviderCall
                          (AIGenerator.round_params self msgs system_content
                             tools_arg) (Responded r) :: evs ++ tr))
      with (tool_execs (evs ++ tr)).
    rewrite tool_execs_app, (dispatched_tool_execs _ _ _ _ _ Hd), map_app.
    rewrite IH, (dispatched_order _ _ _ _ _ Hd).
    cbn [calls_asked]. apply String.eqb_eq in Hs. now rewrite Hs.
Qed.

(** X4.  The tools executed in a query, in order, are exactly the calls of
    the tool-use blocks of the responses, among its first [MAX_TOOL_ROUNDS]
    calls, that stopped for tool use: a block of a response that did not
    stop for tool use, or of the synthesis response, is never executed. *)
Theorem executions_are_blocks_of_rounds
    (World : Type) (self : AIGenerator.t World) (query : string)
    (history : option string) (tools_arg : option (list ToolSchema))
    (tm : AIGenerator.ToolManager World) (w : World) :
  let tr :=
    trace_of (AIGenerator.generate_response self query history tools_arg
                (Some tm) w) in
  map call_of_event (tool_execs tr)
  = flat_map calls_asked
      (firstn AIGenerator.MAX_TOOL_ROUNDS (provider_calls tr))
  /\ length (tool_execs tr)
     = list_sum
         (map blocks_asked
            (firstn AIGenerator.MAX_TOOL_ROUNDS (provider_calls tr))).
Proof.
  intros tr. subst tr.
  pose proof (generate_response_round_trace World self query history tools_arg
                tm w) as Hr.
  split.
  - eapply round_trace_executions; exact Hr.
  - apply (round_trace_counts World self tm tools_arg _ _ _ _ _ Hr).
Qed.

(** ** The shape of the conversation *)

Section ConversationShape.

Variable World : Type.
Variable self : AIGenerator.t World.
Variable tm : AIGenerator.ToolManager World.
Variable tools_arg : option (list ToolSchema).
Variable system_content : string.

Local Abbreviation rtrace :=
  (round_trace World tm self tools_arg system_content).

Lemma nth_error_singleton_call (c : Event) i req res :
  nth_error [c] i = Some (ProviderCall req res) ->
  i = 0 /\ c = ProviderCall req res.
Proof.
  destruct i as [| i]; cbn; intros H.
  - inversion H. auto.
  - now destruct i.
Qed.

(** Each round adds an assistant turn and a user turn. *)
Lemma round_trace_roles k msgs tr out :
  rtrace k msgs tr out ->
  forall i req res,
    nth_error (provider_calls tr) i = Some (ProviderCall req res) ->
    map role (messages req)
    = map role msgs ++ concat (repeat ["assistant"; "user"] i).
Proof.
  induction 1 as [msgs res0 w w' Hp | k msgs res0 w w' Hp Hn
                 | k msgs r w w' evs rs tr out Hp Hs Hd Hr IH];
    intros i req res Hnth.
  - apply nth_error_singleton_call in Hnth. destruct Hnth as [-> Heq].
    inversion Heq; subst. cbn. now rewrite app_nil_r.
  - apply nth_error_singleton_call in Hnth. destruct Hnth as [-> Heq].
    inversion Heq; subst. rewrite round_params_messages. cbn.
    now rewrite app_nil_r.
  - rewrite (provider_calls_round _ _ _ _ _ _ _ _ Hd) in Hnth.
    destruct i as [| i]; cbn in Hnth.
    + inversion Hnth; subst. rewrite round_params_messages. cbn.
      now rewrite app_nil_r.
    + rewrite (IH i req res Hnth). rewrite !map_app. cbn.
      now rewrite <- !app_assoc.
Qed.

Lemma provider_calls_In i tr req res :
  nth_error (provider_calls tr) i = Some (ProviderCall req res) ->
  In (ProviderCall req res) tr.
Proof.
  intros H. apply nth_error_In in H. unfold provider_calls in H.
  now apply filter_In in H.
Qed.

(** A later call is made on the conversation of an earlier call, extended
    by turns of response blocks and tool results. *)
Lemma round_trace_growth k msgs tr out :
  rtrace k msgs tr out ->
  forall i j req1 res1 req2 res2,
    i <= j ->
    nth_error (provider_calls tr) i = Some (ProviderCall req1 res1) ->
    nth_error (provider_calls tr) j = Some (ProviderCall req2 res2) ->
    exists turns,
      messages req2 = messages req1 ++ turns /\ Forall derived_turn turns.
Proof.
  induction 1 as [msgs res0 w w' Hp | k msgs res0 w w' Hp Hn
                 | k msgs r w w' evs rs tr out Hp Hs Hd Hr IH];
    intros i j req1 res1 req2 res2 Hij H1 H2.
  - apply nth_error_singleton_call in H1, H2.
    destruct H1 as [-> E1], H2 as [-> E2].
    inversion E1; inversion E2; subst. exists []. now rewrite app_nil_r.
  - apply nth_error_singleton_call in H1, H2.
    destruct H1 as [-> E1], H2 as [-> E2].
    inversion E1; inversion E2; subst. exists []. now rewrite app_nil_r.
  - destruct i as [| i].
    + assert (Hm : messages req1 = msgs).
      { rewrite (provider_calls_round _ _ _ _ _ _ _ _ Hd) in H1.
        cbn in H1. inversion H1; subst. apply round_params_messages. }
      rewrite Hm.
      apply provider_calls_In in H2.
      apply (round_trace_conversation World tm self tools_arg system_content
               (S k) msgs _ out
               (round_trace_tools World tm self tools_arg system_content
                  k msgs r w w' evs rs tr out Hp Hs Hd Hr) req2 res2 H2).
    + destruct j as [| j]; [lia |].
      rewrite (provider_calls_round _ _ _ _ _ _ _ _ Hd) in H1, H2.
      cbn in H1, H2.
      apply (IH i j req1 res1 req2 res2); [lia | assumption | assumption].
Qed.

(** Every call carries the parameters fixed at construction. *)
Lemma round_trace_base k msgs tr out :
  rtrace k msgs tr out ->
  forall req res,
    In (ProviderCall req res) tr -> base req = AIGenerator.base_params self.
Proof.
  induction 1 as [msgs res0 w w' Hp | k msgs res0 w w' Hp Hn
                 | k msgs r w w' evs rs tr out Hp Hs Hd Hr IH];
    intros req res Hin.
  - destruct Hin as [Heq | []]. now inversion Heq.
  - destruct Hin as [Heq | []]. inversion Heq; subst.
    unfold AIGenerator.round_params. now destruct (Py.truthy_list tools_arg).
  - destruct Hin as [Heq | Hin].
    + inversion Heq; subst.
      unfold AIGenerator.round_params. now destruct (Py.truthy_list tools_arg).
    + apply in_app_or in Hin. destruct Hin as [Hin | Hin].
      * exfalso. eapply dispatched_not_provider_call; eassumption.
      * eauto.
Qed.

(** Blocks without a tool-use block give no execution and no result. *)
Lemma dispatched_none blocks evs rs :
  dispatched World tm blocks evs rs ->
  tool_use_blocks blocks = [] ->
  evs = [] /\ rs = [].
Proof.
  intros Hd Hnone.
  destruct (dispatched_lengths _ _ _ _ _ Hd) as [He Hr].
  rewrite Hnone in He, Hr. cbn in He, Hr.
  split; [now destruct evs | now destruct rs].
Qed.

End ConversationShape.

Lemma roles_after_length n : length (roles_after n) = 2 * n + 1.
Proof.
  unfold roles_after. cbn [length].
  induction n as [| n IH]; cbn [repeat concat length app] in *; lia.
Qed.

Lemma fast_path_call
    (World : Type) (self : AIGenerator.t World) query history tools_arg w
    i req res :
  nth_error
    (provider_calls
       (trace_of (AIGenerator.generate_response self query history tools_arg
                    None w))) i = Some (ProviderCall req res) ->
  i = 0 /\ req = plain_request self query history.
Proof.
  rewrite generate_response_fast_path. cbn [trace_of snd].
  intros H. apply nth_error_singleton_call in H. destruct H as [-> H].
  inversion H; subst. auto.
Qed.

(** X5.  The conversation sent on the inference call number [i] (from 0)
    of a query has [2 * i + 1] turns whose roles alternate between user and
    assistant; it starts and ends with a user turn. *)
Theorem conversation_roles_alternate
    (World : Type) (self : AIGenerator.t World) (query : string)
    (history : option string) (tools_arg : option (list ToolSchema))
    (tmo : option (AIGenerator.ToolManager World)) (w : World)
    (i : nat) (req : Request) (res : ProviderResult) :
  nth_error
    (provider_calls
       (trace_of (AIGenerator.generate_response self query history tools_arg
                    tmo w))) i = Some (ProviderCall req res) ->
  map role (messages req) = roles_after i
  /\ length (messages req) = 2 * i + 1
  /\ last (map role (messages req)) "none" = "user".
Proof.
  intros Hnth.
  assert (Hroles : map role (messages req) = roles_after i).
  { destruct tmo as [tm |].
    - apply (round_trace_roles World self tm tools_arg _ _ _ _ _
               (generate_response_round_trace World self query history
                  tools_arg tm w) i req res Hnth).
    - apply fast_path_call in Hnth. destruct Hnth as [-> ->]. reflexivity. }
  split; [exact Hroles |]. split.
  - rewrite <- (length_map role), Hroles. apply roles_after_length.
  - rewrite Hroles. clear. unfold roles_after.
    induction i as [| i IH]; [reflexivity |].
    cbn [repeat concat app]. cbn [repeat concat app] in IH.
    destruct (concat (repeat ["assistant"; "user"] i)) as [| x xs];
      [reflexivity | exact IH].
Qed.

Lemma conversation_roles_alternate_witness :
  exists req res,
    nth_error (provider_calls (trace_of Scenarios.eager_run)) 2
      = Some (ProviderCall req res)
    /\ map role (messages req)
       = ["user"; "assistant"; "user"; "assistant"; "user"].
Proof.
  assert (H : exists req res,
             nth_error (provider_calls (trace_of Scenarios.eager_run)) 2
             = Some (ProviderCall req res)).
  { vm_compute. eexists. eexists. reflexivity. }
  destruct H as (req & res & H).
  exists req, res. split; [exact H |].
  exact (proj1 (conversation_roles_alternate nat
                  (Scenarios.generator Scenarios.eager_client) "test" None
                  Scenarios.search_tools (Some Scenarios.one_tool_manager) 0
                  2 req res H)).
Defined.

(** X6.  The conversation only grows: a later inference call of a query is
    made on the conversation of any earlier call followed by further turns,
    which hold response blocks or tool results. *)
Theorem conversation_only_grows
    (World : Type) (self : AIGenerator.t World) (query : string)
    (history : option string) (tools_arg : option (list ToolSchema))
    (tmo : option (AIGenerator.ToolManager World)) (w : World)
    (i j : nat) (req1 req2 : Request) (res1 res2 : ProviderResult) :
  let calls :=
    provider_calls
      (trace_of (AIGenerator.generate_response self query history tools_arg
                   tmo w)) in
  i <= j ->
  nth_error calls i = Some (ProviderCall req1 res1) ->
  nth_error calls j = Some (ProviderCall req2 res2) ->
  exists turns,
    messages req2 = messages req1 ++ turns /\ Forall derived_turn turns.
Proof.
  intros calls Hij H1 H2. subst calls.
  destruct tmo as [tm |].
  - apply (round_trace_growth World self tm tools_arg _ _ _ _ _
             (generate_response_round_trace World self query history
                tools_arg tm w) i j req1 res1 req2 res2 Hij H1 H2).
  - apply fast_path_call in H1, H2.
    destruct H1 as [_ ->], H2 as [_ ->].
    exists []. now rewrite app_nil_r.
Qed.

Lemma conversation_only_grows_witness :
  exists req1 res1 req2 res2 turns,
    nth_error (provider_calls (trace_of Scenarios.eager_run)) 0
      = Some (ProviderCall req1 res1)
    /\ nth_error (provider_calls (trace_of Scenarios.eager_run)) 2
       = Some (ProviderCall req2 res2)
    /\ messages req2 = messages req1 ++ turns.
Proof.
  assert (H : exists req1 res1 req2 res2,
             nth_error (provider_calls (trace_of Scenarios.eager_run)) 0
             = Some (ProviderCall req1 res1)
             /\ nth_error (provider_calls (trace_of Scenarios.eager_run)) 2
                = Some (ProviderCall req2 res2)).
  { vm_compute. do 4 eexists. split; reflexivity. }
  destruct H as (req1 & res1 & req2 & res2 & H1 & H2).
  destruct (conversation_only_grows nat
              (Scenarios.generator Scenarios.eager_client) "test" None
              Scenarios.search_tools (Some Scenarios.one_tool_manager) 0
              0 2 req1 req2 res1 res2 (Nat.le_0_l 2) H1 H2)
    as (turns & Hm & _).
  exists req1, res1, req2, res2, turns. auto.
Defined.

(** X7.  Every inference call of a generator built by [__init__] carries
    the model given at construction, temperature 0 and at most 800 tokens. *)
Theorem calls_carry_base_params
    (World : Type) (c : AIGenerator.Client World) (model_name : string)
    (query : string) (history : option string)
    (tools_arg : option (list ToolSchema))
    (tmo : option (AIGenerator.ToolManager World)) (w : World)
    (req : Request) (res : ProviderResult) :
  In (ProviderCall req res)
     (trace_of (AIGenerator.generate_response
                  (AIGenerator.init c model_name) query history tools_arg
                  tmo w)) ->
  base req
  = {| model := model_name; temperature := 0; max_tokens := 800 |}.
Proof.
  destruct tmo as [tm |].
  - intros Hin.
    apply (round_trace_base World (AIGenerator.init c model_name) tm
             tools_arg _ _ _ _ _
             (generate_response_round_trace World
                (AIGenerator.init c model_name) query history tools_arg tm w)
             req res Hin).
  - rewrite generate_response_fast_path. cbn [trace_of snd].
    intros [Heq | []]. now inversion Heq.
Qed.

Lemma calls_carry_base_params_witness :
  exists req res,
    nth_error (trace_of Scenarios.eager_run) 6 = Some (ProviderCall req res)
    /\ base req
       = {| model := "test-model"; temperature := 0; max_tokens := 800 |}.
Proof.
  assert (H : exists req res,
             nth_error (trace_of Scenarios.eager_run) 6
             = Some (ProviderCall req res)).
  { vm_compute. eexists. eexists. reflexivity. }
  destruct H as (req & res & H).
  exists req, res. split; [exact H |].
  exact (calls_carry_base_params nat Scenarios.eager_client "test-model"
           "test" None Scenarios.search_tools
           (Some Scenarios.one_tool_manager) 0 req res (nth_error_In _ _ H)).
Defined.

(** X8.  An empty tool list behaves as no tool list: the run is the same,
    and no call carries a tool schema or a [tool_choice]. *)
Theorem empty_tools_is_no_tools
    (World : Type) (self : AIGenerator.t World) (query : string)
    (history : option string)
    (tmo : option (AIGenerator.ToolManager World)) (w : World) :
  AIGenerator.generate_response self query history (Some []) tmo w
  = AIGenerator.generate_response self query history None tmo w
  /\ (forall req res,
        In (ProviderCall req res)
           (trace_of (AIGenerator.generate_response self query history
                        (Some []) tmo w)) ->
        tools req = None /\ tool_choice req = None).
Proof.
  split; [reflexivity |].
  intros req res Hin.
  destruct tmo as [tm |].
  - apply In_nth_error in Hin. destruct Hin as [n Hn].
    assert (Hfilter : In (ProviderCall req res)
                        (provider_calls
                           (trace_of
                              (AIGenerator.generate_response self query
                                 history (Some []) (Some tm) w)))).
    { apply filter_In. split; [eapply nth_error_In; exact Hn | reflexivity]. }
    apply In_nth_error in Hfilter. destruct Hfilter as [i Hi].
    destruct (round_trace_tools_only_in_rounds World tm self (Some []) _ _ _ _
                _ (generate_response_round_trace World self query history
                     (Some []) tm w) i req res Hi) as [Hlt Hge].
    destruct (Nat.lt_ge_cases i AIGenerator.MAX_TOOL_ROUNDS) as [Hc | Hc].
    + exact (Hlt Hc).
    + destruct (Hge Hc) as (_ & Ht & Hch & _). auto.
  - rewrite generate_response_fast_path in Hin. cbn [trace_of snd] in Hin.
    destruct Hin as [Heq | []]. inversion Heq; subst. auto.
Qed.

Lemma empty_tools_is_no_tools_witness :
  exists req res,
    nth_error
      (trace_of
         (AIGenerator.generate_response
            (Scenarios.generator Scenarios.eager_client) "test" None
            (Some []) (Some Scenarios.one_tool_manager) 0)) 0
    = Some (ProviderCall req res)
    /\ tools req = None /\ tool_choice req = None.
Proof.
  assert (H : exists req res,
             nth_error
               (trace_of
                  (AIGenerator.generate_response
                     (Scenarios.generator Scenarios.eager_client) "test" None
                     (Some []) (Some Scenarios.one_tool_manager) 0)) 0
             = Some (ProviderCall req res)).
  { vm_compute. eexists. eexists. reflexivity. }
  destruct H as (req & res & H).
  exists req, res. split; [exact H |].
  exact (proj2 (empty_tools_is_no_tools nat
                  (Scenarios.generator Scenarios.eager_client) "test" None
                  (Some Scenarios.one_tool_manager) 0)
           req res (nth_error_In _ _ H)).
Defined.

(** X9.  A response that stops for tool use but holds no tool-use block
    still uses a round: no tool is executed, and the next inference call is
    made on the conversation extended by the assistant turn and by a user
    turn holding an empty list of results. *)
Theorem round_without_tool_blocks
    (World : Type) (self : AIGenerator.t World) (query : string)
    (history : option string) (tools_arg : option (list ToolSchema))
    (tm : AIGenerator.ToolManager World) (w : World)
    (pre : list Event) (req : Request) (r : Response) (post : list Event) :
  trace_of (AIGenerator.generate_response self query history tools_arg
              (Some tm) w)
  = pre ++ ProviderCall req (Responded r) :: post ->
  stop_reason r = "tool_use" ->
  length (provider_calls pre) < AIGenerator.MAX_TOOL_ROUNDS ->
  tool_use_blocks (content r) = [] ->
  exists req' res' rest,
    post = ProviderCall req' res' :: rest
    /\ messages req'
       = messages req ++ [assistant_turn (content r); tool_result_turn []].
Proof.
  intros Htr Hstop Hlen Hnone.
  destruct (round_trace_tool_round _ _ _ _ _ _ _ _ _
              (generate_response_round_trace World self query history
                 tools_arg tm w) pre req r post Htr Hstop Hlen)
    as (evs & rs & req' & res' & rest & Hpost & Hd & Hm).
  destruct (dispatched_none World tm _ _ _ Hd Hnone) as [-> ->].
  exists req', res', rest. split; [exact Hpost |].
  rewrite Hm. now rewrite <- app_assoc.
Qed.

Lemma round_without_tool_blocks_witness :
  exists req' res' rest,
    tl (trace_of MoreScenarios.hollow_run) = ProviderCall req' res' :: rest
    /\ messages req'
       = [ user_turn "test";
           assistant_turn [TextBlock "Searching."];
           tool_result_turn [] ].
Proof.
  destruct (round_without_tool_blocks (list ProviderResult)
              (Scenarios.generator Scenarios.scripted_client) "test" None
              Scenarios.search_tools (Scenarios.returning_tools "result")
              [ Responded MoreScenarios.hollow_response;
                Responded (Scenarios._text_response "Done") ]
              []
              (round_request (Scenarios.generator Scenarios.scripted_client)
                 "test" None Scenarios.search_tools)
              MoreScenarios.hollow_response
              (tl (trace_of MoreScenarios.hollow_run)))
    as (req' & res' & rest & Hpost & Hm).
  - vm_compute. reflexivity.
  - reflexivity.
  - unfold AIGenerator.MAX_TOOL_ROUNDS. cbn. lia.
  - reflexivity.
  - exists req', res', rest. split; [exact Hpost | exact Hm].
Defined.

Lemma generate_response_last
    (World : Type) (self : AIGenerator.t World) query history tools_arg tmo w :
  exists pre req res,
    trace_of (AIGenerator.generate_response self query history tools_arg tmo w)
    = pre ++ [ProviderCall req res]
    /\ outcome_of (AIGenerator.generate_response self query history tools_arg
                     tmo w) = answer_of res.
Proof.
  destruct tmo as [tm |].
  - eapply round_trace_last. apply generate_response_round_trace.
  - rewrite generate_response_fast_path. cbn [trace_of outcome_of fst snd].
    now exists [], (plain_request self query history),
      (fst (AIGenerator.messages_create (AIGenerator.client self)
              (plain_request self query history) w)).
Qed.

(** X10.  A query returns a string exactly when its last inference call
    was answered by a response whose first content block is a text block,
    and the string is the text of that block; with no content block, or
    with a leading tool-use block, the query raises instead. *)
Theorem answer_is_leading_text_of_last_response
    (World : Type) (self : AIGenerator.t World) (query : string)
    (history : option string) (tools_arg : option (list ToolSchema))
    (tmo : option (AIGenerator.ToolManager World)) (w : World)
    (answer : string) :
  let run :=
    AIGenerator.generate_response self query history tools_arg tmo w in
  outcome_of run = Ret answer <->
  exists pre req r rest,
    trace_of run = pre ++ [ProviderCall req (Responded r)]
    /\ content r = TextBlock answer :: rest.
Proof.
  intros run.
  destruct (generate_response_last World self query history tools_arg tmo w)
    as (pre & req & res & Htr & Hout).
  fold run in Htr, Hout. split.
  - intros Hret. rewrite Hout in Hret.
    destruct res as [r | m]; [| discriminate].
    cbn in Hret. unfold AIGenerator.content0_text in Hret.
    destruct (content r) as [| [text | id name input] rest] eqn:Hc;
      try discriminate.
    inversion Hret; subst. now exists pre, req, r, rest.
  - intros (pre' & req' & r & rest & Htr' & Hc).
    rewrite Htr in Htr'. apply app_inj_tail in Htr'.
    destruct Htr' as [_ Heq]. inversion Heq; subst.
    rewrite Hout. cbn. unfold AIGenerator.content0_text. now rewrite Hc.
Qed.

(** X11.  The dispatch loop composes: over the blocks [bs1 ++ bs2] it is
    the loop over [bs1] followed by the loop over [bs2] started from the
    results and the world the first one left. *)
Theorem execute_tool_calls_app
    (World : Type) (tm : AIGenerator.ToolManager World)
    (bs1 bs2 : list ContentBlock) (acc : list ToolResult) (w : World) :
  AIGenerator.execute_tool_calls tm (bs1 ++ bs2) acc w
  = AIGenerator.bind (AIGenerator.execute_tool_calls tm bs1 acc)
      (fun rs => AIGenerator.execute_tool_calls tm bs2 rs) w.
Proof.
  revert acc w. induction bs1 as [| b bs1 IH]; intros acc w.
  - cbn. unfold AIGenerator.bind, AIGenerator.ret.
    now destruct (AIGenerator.execute_tool_calls tm bs2 acc w) as [[o w2] tr].
  - destruct b as [text | id name input].
    + cbn [app]. rewrite execute_tool_calls_text. rewrite IH.
      unfold AIGenerator.bind. now rewrite execute_tool_calls_text.
    + cbn [app]. rewrite execute_tool_calls_tool.
      unfold AIGenerator.bind at 1. rewrite execute_tool_calls_tool.
      destruct (AIGenerator.execute_tool tm name input w) as [out w1].
      rewrite IH. unfold AIGenerator.bind.
      destruct (AIGenerator.execute_tool_calls tm bs1 _ w1)
        as [[[rs1 | e] w2] tr1]; [| reflexivity].
      now destruct (AIGenerator.execute_tool_calls tm bs2 rs1 w2)
        as [[o w3] tr2].
Qed.

(** ** The query route *)

(** X12.  The route keeps a session id that is given and non-empty: no
    session is created, the RAG system is asked once with that id, and a
    successful response carries it.  Without a session id, or with the empty
    string, exactly one session is created first, and a successful response
    carries the id that was created. *)
Theorem query_route_session_id
    (World : Type) (rag : Api.RagSystem World) (request : Api.QueryRequest)
    (w : World) :
  let result := fst (fst (Api.query_documents rag request w)) in
  let calls := snd (Api.query_documents rag request w) in
  (forall sid,
     Api.session_id request = Some sid -> sid <> EmptyString ->
     (exists res, calls = [Api.RagQuery (Api.query request) sid res])
     /\ (forall body,
           result = Api.Ok200 body -> Api.response_session_id body = sid))
  /\ (Api.session_id request = None
      \/ Api.session_id request = Some EmptyString ->
      (exists created rest,
         calls = Api.CreateSession created :: rest
         /\ (forall c, ~ In (Api.CreateSession c) rest))
      /\ (forall body,
            result = Api.Ok200 body ->
            calls
            = [ Api.CreateSession (Api.Gave (Api.response_session_id body));
                Api.RagQuery (Api.query request)
                  (Api.response_session_id body)
                  (Api.Gave (Api.answer body, Api.sources body)) ])).
Proof.
  intros result calls. subst result calls. split.
  - intros sid Hsid Hne. unfold Api.query_documents. rewrite Hsid.
    destruct sid as [| c s]; [contradiction |].
    unfold Api.answer_query.
    destruct (Api.rag_query rag (Api.query request) (String c s) w)
      as [[[ans srcs] | msg] w1]; cbn.
    + split; [eexists; reflexivity |].
      intros body Hb. now inversion Hb.
    + split; [eexists; reflexivity |]. intros body Hb. discriminate.
  - intros Habsent. unfold Api.query_documents.
    assert (Hcreate :
      match Api.session_id request with
      | Some (String c s) =>
          Api.answer_query rag request (String c s) w []
      | _ =>
          match Api.create_session rag w with
          | (Api.Gave sid, w1) =>
              Api.answer_query rag request sid w1
                [Api.CreateSession (Api.Gave sid)]
          | (Api.Threw msg, w1) =>
              (Api.HTTPException 500 msg, w1,
               [Api.CreateSession (Api.Threw msg)])
          end
      end
      = match Api.create_session rag w with
        | (Api.Gave sid, w1) =>
            Api.answer_query rag request sid w1
              [Api.CreateSession (Api.Gave sid)]
        | (Api.Threw msg, w1) =>
            (Api.HTTPException 500 msg, w1,
             [Api.CreateSession (Api.Threw msg)])
        end).
    { destruct Habsent as [-> | ->]; reflexivity. }
    rewrite Hcreate. clear Hcreate.
    destruct (Api.create_session rag w) as [[sid | msg] w1].
    + unfold Api.answer_query.
      destruct (Api.rag_query rag (Api.query request) sid w1)
        as [[[ans srcs] | msg] w2]; cbn.
      * split.
        -- do 2 eexists. split; [reflexivity |].
           intros c [H | []]. discriminate.
        -- intros body Hb. now inversion Hb.
      * split.
        -- do 2 eexists. split; [reflexivity |].
           intros c [H | []]. discriminate.
        -- intros body Hb. discriminate.
    + cbn. split.
      * do 2 eexists. split; [reflexivity |]. intros c [].
      * intros body Hb. discriminate.
Qed.

Lemma query_route_session_id_witness :
  fst (fst (Api.query_documents
              (MoreScenarios.mock_rag_system "Answer" [])
              (Api.mkQueryRequest "test" (Some "existing-session")) 0))
  = Api.Ok200 (Api.mkQueryResponse "Answer" [] "existing-session")
  /\ snd (Api.query_documents
            (MoreScenarios.mock_rag_system "Answer" [])
            (Api.mkQueryRequest "test" (Some EmptyString)) 0)
     = [ Api.CreateSession (Api.Gave "test-session-id");
         Api.RagQuery "test" "test-session-id" (Api.Gave ("Answer", [])) ].
Proof.
  split; [reflexivity |].
  destruct (query_route_session_id nat
              (MoreScenarios.mock_rag_system "Answer" [])
              (Api.mkQueryRequest "test" (Some EmptyString)) 0)
    as [_ Hcreated].
  destruct (Hcreated (or_intror eq_refl)) as [_ Hbody].
  exact (Hbody (Api.mkQueryResponse "Answer" [] "test-session-id") eq_refl).
Defined.
